(** * Komoditas data summarizer: the aggregation pipeline of
      [src/sum_komoditas.py], embedded in Rocq.

    [process_files] reads two sheets from every candidate workbook, keeps the
    rows of one kabupaten (district), and builds a one-row district summary
    and a per-kecamatan (sub-district) table.  The Python code drives pandas;
    the pandas operations it calls are written out below as functions on a
    small model of a [DataFrame]:

    - a cell is an integer-valued number, a missing value (NaN) or a text;
      fractional numbers are outside the model, and the sums of numbers are
      exact integer sums (pandas computes them in int64 or float64, which
      agrees with the exact sum as long as it stays below 2^53 in magnitude);
    - a frame is its column index (name and dtype of every column) and the
      list of its rows, a row being a finite map from column names to cells
      (a cell that is not in the map is NaN);
    - what lies outside the Python process, the directory listing ([glob])
      and the contents of the workbooks ([read_excel]), is a parameter of
      the model, gathered in the record [World];
    - [print] appends a line to [stdout];
    - exceptions are values of [exn], and a computation that may raise
      returns a [result]. *)

From Stdlib Require Import ZArith String Ascii DecimalString.
From Stdlib Require OrderedTypeEx.
From stdpp Require Import base gmap strings list sorting.

Open Scope Z_scope.
Open Scope string_scope.
Open Scope list_scope.

(** ** Cells, dtypes, exceptions *)

Inductive value : Type :=
  | VInt (z : Z)
  | VNaN
  | VStr (s : string).

Inductive dtype : Type := int64 | float64 | object.

Inductive exn : Type :=
  | KeyError (key : string)
  | TypeError (msg : string)
  | ValueError (msg : string)
  | IndexError (msg : string)
  | OSError (msg : string).

Inductive result (A : Type) : Type :=
  | Ok (a : A)
  | Raise (e : exn).
Arguments Ok {A} a.
Arguments Raise {A} e.

#[global] Instance value_eq_dec : EqDecision value.
Proof. solve_decision. Defined.
#[global] Instance dtype_eq_dec : EqDecision dtype.
Proof. solve_decision. Defined.
#[global] Instance exn_eq_dec : EqDecision exn.
Proof. solve_decision. Defined.

#[global] Instance result_ret : MRet result := fun _ a => Ok a.
#[global] Instance result_bind : MBind result := fun _ _ f m =>
  match m with
  | Ok a => f a
  | Raise e => Raise e
  end.
#[global] Instance result_fmap : FMap result := fun _ _ f m =>
  match m with
  | Ok a => Ok (f a)
  | Raise e => Raise e
  end.

(** [str(x)] of an integer and [repr(s)] of a text without quotes in it. *)
Definition str_int (z : Z) : string := NilZero.string_of_int (Z.to_int z).
Definition repr (s : string) : string := "'" +:+ s +:+ "'".

(** [str(e)]: a [KeyError] shows the [repr] of its key, the others their
    message. *)
Definition str_exn (e : exn) : string :=
  match e with
  | KeyError key => repr key
  | TypeError msg | ValueError msg | IndexError msg | OSError msg => msg
  end.

Definition notna (v : value) : bool :=
  match v with
  | VNaN => false
  | _ => true
  end.

Definition is_numeric (v : value) : Prop :=
  match v with
  | VStr _ => False
  | _ => True
  end.

#[global] Instance is_numeric_dec v : Decision (is_numeric v).
Proof. destruct v; simpl; apply _. Defined.

(** The number a cell contributes to a numeric sum: NaN is skipped. *)
Definition num_of (v : value) : Z :=
  match v with
  | VInt z => z
  | _ => 0
  end.

(** The dtype pandas gives a column holding just this scalar. *)
Definition dtype_of_value (v : value) : dtype :=
  match v with
  | VInt _ => int64
  | VNaN => float64
  | VStr _ => object
  end.

Definition numeric_dtype (d : dtype) : bool :=
  match d with
  | object => false
  | _ => true
  end.

Definition find_common_type (a b : dtype) : dtype :=
  match a, b with
  | int64, int64 => int64
  | object, _ | _, object => object
  | _, _ => float64
  end.

Definition ensure_dtype_can_hold_na (d : dtype) : dtype :=
  match d with
  | int64 => float64
  | _ => d
  end.

(** The order in which pandas sorts group keys: numbers by value, texts by
    code points, and in a column that mixes them numbers before texts. *)
Definition value_compare (a b : value) : comparison :=
  match a, b with
  | VInt x, VInt y => Z.compare x y
  | VInt _, _ => Lt
  | _, VInt _ => Gt
  | VStr s, VStr t => String.compare s t
  | VStr _, VNaN => Lt
  | VNaN, VStr _ => Gt
  | VNaN, VNaN => Eq
  end.

Definition value_le (a b : value) : Prop := value_compare a b <> Gt.
Definition value_lt (a b : value) : Prop := value_compare a b = Lt.

#[global] Instance value_le_dec a b : Decision (value_le a b).
Proof. unfold value_le. apply _. Defined.

(** ** Python's [+] on cells and the sums built from it *)

Definition py_add (a b : value) : result value :=
  match a, b with
  | VInt x, VInt y => Ok (VInt (x + y))
  | VStr s, VStr t => Ok (VStr (s +:+ t))
  | VInt _, VNaN | VNaN, VInt _ | VNaN, VNaN => Ok VNaN
  | VInt _, VStr _ | VNaN, VStr _ =>
      Raise (TypeError "unsupported operand type(s) for +: 'int' and 'str'")
  | VStr _, _ =>
      Raise (TypeError "can only concatenate str (not 'int') to str")
  end.

(** Adding up the objects of a list from the left; the first one is taken
    as it is, and the sum of no object is 0. *)
Definition py_sum (l : list value) : result value :=
  match l with
  | [] => Ok (VInt 0)
  | v :: vs => foldl (fun acc x => acc ≫= fun a => py_add a x) (Ok v) vs
  end.

(** Sum of a numeric (int64 or float64) block, NaN skipped. *)
Definition nansum (l : list value) : Z :=
  foldr (fun v acc => num_of v + acc) 0 l.

(** [Series.sum] as the group-by uses it: by the dtype of the column;
    an object column adds its non-missing objects with [+]. *)
Definition Series_sum (d : dtype) (l : list value) : result value :=
  match d with
  | object => py_sum (filter (fun v => notna v = true) l)
  | _ => Ok (VInt (nansum l))
  end.

Definition fillna0 (v : value) : value :=
  match v with
  | VNaN => VInt 0
  | _ => v
  end.

(** One row of [DataFrame.sum(axis=1)]: numeric when all the selected
    columns are, else a sum of objects with NaN replaced by 0. *)
Definition row_sum (ds : list dtype) (l : list value) : result value :=
  if forallb numeric_dtype ds then Ok (VInt (nansum l))
  else py_sum (fillna0 <$> l).

(** ** Frames *)

Abbreviation row := (gmap string value).

Record DataFrame : Type := mkDataFrame {
  cols : list (string * dtype);
  rows : list row
}.

Definition columns (df : DataFrame) : list string := (cols df).*1.

Definition cell (c : string) (r : row) : value := default VNaN (r !! c).

(** [pd.DataFrame()] *)
Definition DataFrame_new : DataFrame := mkDataFrame [] [].

(** [df.empty]: no column or no row. *)
Definition empty (df : DataFrame) : bool :=
  bool_decide (cols df = []) || bool_decide (rows df = []).

Fixpoint assoc {A : Type} (c : string) (l : list (string * A)) : option A :=
  match l with
  | [] => None
  | (c', a) :: l' => if decide (c' = c) then Some a else assoc c l'
  end.

Definition dtype_of (df : DataFrame) (c : string) : option dtype :=
  assoc c (cols df).

(** [df[c]]: the cells of column [c], or [KeyError]. *)
Definition getitem (df : DataFrame) (c : string) : result (list value) :=
  if decide (c ∈ columns df) then Ok (cell c <$> rows df)
  else Raise (KeyError c).

(** [s == x] for an integer [x], cell by cell. *)
Definition eq_scalar (s : list value) (x : Z) : list bool :=
  (fun v => bool_decide (v = VInt x)) <$> s.

(** [df[mask]]: the rows at which the Boolean mask holds. *)
Definition getitem_mask (df : DataFrame) (mask : list bool) : DataFrame :=
  mkDataFrame (cols df)
    (fst <$> filter (fun p => p.2 = true) (zip (rows df) mask)).

(** [df[sel]] for a list of column names. *)
Definition getitem_list (df : DataFrame) (sel : list string) : result DataFrame :=
  match filter (fun c => c ∉ columns df) sel with
  | [] => Ok (mkDataFrame
                ((fun c => (c, default object (dtype_of df c))) <$> sel)
                (rows df))
  | c :: _ => Raise (KeyError c)
  end.

(** [df.select_dtypes(include=['float64', 'int64']).columns]: the columns
    whose dtype is one of the two. *)
Definition select_dtypes_numeric (df : DataFrame) : list string :=
  filter (fun c => from_option numeric_dtype false (dtype_of df c) = true)
    (columns df).

(** The column index after [df[c] = ...]: an existing column keeps its
    place and takes the new dtype, a new one goes last. *)
Definition set_col (cl : list (string * dtype)) (c : string) (d : dtype)
    : list (string * dtype) :=
  if decide (c ∈ cl.*1)
  then (fun p => if decide (p.1 = c) then (c, d) else p) <$> cl
  else cl ++ [(c, d)].

(** [df[c] = v] for a scalar [v]. *)
Definition setitem_scalar (df : DataFrame) (c : string) (v : value) : DataFrame :=
  mkDataFrame (set_col (cols df) c (dtype_of_value v)) (<[c := v]> <$> rows df).

(** [df[c] = s] for a series [s] over the rows of [df]. *)
Definition setitem_series (df : DataFrame) (c : string) (d : dtype)
    (s : list value) : DataFrame :=
  mkDataFrame (set_col (cols df) c d)
    ((fun p => <[c := p.2]> p.1) <$> zip (rows df) s).

(** [str(v)] of a cell of a column of dtype [d], as [astype(str)] gives it. *)
Definition astype_str (d : dtype) (v : value) : value :=
  match v with
  | VStr s => VStr s
  | VNaN => VStr "nan"
  | VInt z => VStr (if decide (d = float64) then str_int z +:+ ".0" else str_int z)
  end.

(** [pd.concat([a, b], ignore_index=True)].  A frame without rows and
    columns is left out.  Otherwise the columns are those of [a] followed
    by the new ones of [b], every column gets the common dtype of its
    parts (one that can hold NaN where a part lacks the column), and the
    rows of [b] follow the rows of [a]. *)
Definition concat (a b : DataFrame) : DataFrame :=
  if bool_decide (cols a = [] ∧ rows a = []) then b
  else if bool_decide (cols b = [] ∧ rows b = []) then a
  else
    mkDataFrame
      (((fun p => (p.1, match dtype_of b p.1 with
                        | Some d => find_common_type p.2 d
                        | None => ensure_dtype_can_hold_na p.2
                        end)) <$> cols a)
       ++ ((fun p => (p.1, ensure_dtype_can_hold_na p.2))
             <$> filter (fun p => p.1 ∉ columns a) (cols b)))
      (rows a ++ rows b).

(** The distinct non-missing keys of a group-by, sorted. *)
Definition group_keys (s : list value) : list value :=
  merge_sort value_le (remove_dups (filter (fun v => notna v = true) s)).

(** The row of one group: the key and, for every selected column, the sum
    of that column over the rows with that key. *)
Definition group_row (df : DataFrame) (key : string) (sel : list string)
    (k : value) : result row :=
  sums ← mapM (fun c =>
      Series_sum (default object (dtype_of df c))
        (cell c <$> filter (fun r => cell key r = k) (rows df))) sel;
  mret (<[key := k]> (list_to_map (zip sel sums) : row)).

(** [df.groupby(key)[sel].sum().reset_index()]: one row per key, in the
    order of the sorted keys. *)
Definition groupby_sum (key : string) (sel : list string) (df : DataFrame)
    : result DataFrame :=
  match dtype_of df key with
  | None => Raise (KeyError key)
  | Some dby =>
    match filter (fun c => c ∉ columns df) sel with
    | c :: _ => Raise (KeyError ("Columns not found: " +:+ repr c))
    | [] =>
      rs ← mapM (group_row df key sel) (group_keys (cell key <$> rows df));
      mret (mkDataFrame
              ((key, dby) :: ((fun c => (c, default object (dtype_of df c))) <$> sel))
              rs)
    end
  end.

(** [df[sel].sum()] then [pd.DataFrame(...).T]: the one-row frame of the
    column sums. *)
Definition sum_row (df : DataFrame) (sel : list string) : result DataFrame :=
  sums ← mapM (fun c =>
      Series_sum (default object (dtype_of df c)) (cell c <$> rows df)) sel;
  let d := foldr find_common_type int64
             ((fun c => default object (dtype_of df c)) <$> sel) in
  mret (mkDataFrame ((fun c => (c, d)) <$> sel)
          [list_to_map (zip sel sums) : row]).

(** [df[sel].sum(axis=1)] *)
Definition sum_axis1 (df : DataFrame) (sel : list string) : result (list value) :=
  mapM (fun r =>
      row_sum ((fun c => default object (dtype_of df c)) <$> sel)
              ((fun c => cell c r) <$> sel))
    (rows df).

(** [s.iloc[0]] *)
Definition iloc0 (s : list value) : result value :=
  match s with
  | v :: _ => Ok v
  | [] => Raise (IndexError "single positional indexer is out-of-bounds")
  end.

(** ** Strings and paths *)

(** [s.replace(old, new)]: every occurrence of [old], from the left and
    without overlap. [skip] counts the characters of an occurrence that
    are still to be passed over. *)
Fixpoint replace_from (skip : nat) (old new s : string) : string :=
  match s with
  | EmptyString => EmptyString
  | String c s' =>
    match skip with
    | S n => replace_from n old new s'
    | O =>
      if String.prefix old s
      then new +:+ replace_from (String.length old - 1) old new s'
      else String c (replace_from 0 old new s')
    end
  end.

Definition str_replace (old new s : string) : string := replace_from 0 old new s.

(** [os.path.basename(p)]: what follows the last slash. *)
Fixpoint basename_from (acc p : string) : string :=
  match p with
  | EmptyString => acc
  | String c p' =>
    if Ascii.eqb c "/" then basename_from EmptyString p'
    else basename_from (acc +:+ String c EmptyString) p'
  end.

Definition basename (p : string) : string := basename_from EmptyString p.

Definition endswith_slash (p : string) : bool :=
  match String.rev p with
  | String c _ => Ascii.eqb c "/"
  | EmptyString => false
  end.

(** [os.path.join(a, b)] *)
Definition os_path_join (a b : string) : string :=
  if String.prefix "/" b then b
  else if bool_decide (a = EmptyString) || endswith_slash a then a +:+ b
  else a +:+ "/" +:+ b.

(** ** The world outside and the state of a call *)

(** [glob pattern] lists the paths that match; [read_excel file sheet] is
    the frame pandas reads from that sheet of that workbook, or the
    exception it raises (unreadable file, no such sheet, ...). *)
Record World : Type := mkWorld {
  glob : string -> list string;
  read_excel : string -> string -> result DataFrame
}.

(** The variables of [process_files] that are assigned more than once, and
    what has been printed so far. *)
Record state : Type := mkState {
  result_kab : DataFrame;
  result_kec : DataFrame;
  summary_kab : option DataFrame;
  stdout : list string
}.

(** A statement runs on a state, changes it, and returns or raises; what
    it changed before raising stays changed. *)
Definition M (A : Type) : Type := state -> state * result A.

#[global] Instance M_ret : MRet M := fun _ a st => (st, Ok a).
#[global] Instance M_bind : MBind M := fun _ _ f m st =>
  match m st with
  | (st', Ok a) => f a st'
  | (st', Raise e) => (st', Raise e)
  end.

Definition lift {A : Type} (r : result A) : M A := fun st => (st, r).
Definition raise {A : Type} (e : exn) : M A := fun st => (st, Raise e).
Definition gets {A : Type} (f : state -> A) : M A := fun st => (st, Ok (f st)).
Definition modify (f : state -> state) : M unit := fun st => (f st, Ok tt).

Definition print (line : string) : M unit :=
  modify (fun st => mkState (result_kab st) (result_kec st) (summary_kab st)
                            (stdout st ++ [line])).
Definition set_result_kab (df : DataFrame) : M unit :=
  modify (fun st => mkState df (result_kec st) (summary_kab st) (stdout st)).
Definition set_result_kec (df : DataFrame) : M unit :=
  modify (fun st => mkState (result_kab st) df (summary_kab st) (stdout st)).
Definition set_summary_kab (o : option DataFrame) : M unit :=
  modify (fun st => mkState (result_kab st) (result_kec st) o (stdout st)).

(** [try: body  except Exception as e: handler e] *)
Definition try_except (body : M unit) (handler : exn -> M unit) : M unit :=
  fun st =>
    match body st with
    | (st', Raise e) => handler e st'
    | r => r
    end.

(** [for x in l: body x] *)
Fixpoint for_each {A : Type} (l : list A) (body : A -> M unit) : M unit :=
  match l with
  | [] => mret tt
  | x :: l' => body x ;; for_each l' body
  end.

(** The state at the start of a call. *)
Definition state0 : state := mkState DataFrame_new DataFrame_new None [].

(** A call: what it printed and what it returned or raised. *)
Definition call {A : Type} (m : M A) : list string * result A :=
  let (st, r) := m state0 in (stdout st, r).

(** ** [process_files] *)

Definition columns_to_sum : list string :=
  ["n_rtup_tunggal"; "n_rtup_campuran"; "n_rtup_tumpang_sari";
   "n_rtup_asosiasi_antar_semusim"; "n_rtup_jumlah"; "n_rtup"].

Section ProcessFiles.

Variable w : World.
Variable directory : string.
Variable kab_code : Z.
Variable table_prefix : string.

(** The body of the [try] (lines 62-75): the district sheet is read,
    filtered and appended to [result_kab] before the sub-district sheet is
    touched. *)
Definition try_body (file : string) : M unit :=
  df_kab ← lift (read_excel w file (table_prefix +:+ "_komoditas_kab"));
  kab ← lift (getitem df_kab "kab");
  let district_data_kab := getitem_mask df_kab (eq_scalar kab kab_code) in
  acc ← gets result_kab;
  set_result_kab (concat acc district_data_kab) ;;
  df_kec ← lift (read_excel w file (table_prefix +:+ "_komoditas_kec"));
  kab ← lift (getitem df_kec "kab");
  let district_data_kec := getitem_mask df_kec (eq_scalar kab kab_code) in
  summed_kec ← lift (groupby_sum "kec" columns_to_sum district_data_kec);
  let summed_kec := setitem_scalar summed_kec "file" (VStr (basename file)) in
  acc ← gets result_kec;
  set_result_kec (concat acc summed_kec).

(** The body of the loop over the files (lines 60-77). *)
Definition loop_body (file : string) : M unit :=
  print ("Processing file: " +:+ file) ;;
  try_except (try_body file)
    (fun e => print ("Error processing file " +:+ file +:+ ": " +:+ str_exn e)).

(** Lines 80-98: the district summary. *)
Definition process_kab : M unit :=
  acc ← gets result_kab;
  if empty acc then
    print ("No data found for id_kab " +:+ str_int kab_code +:+ " in the "
           +:+ table_prefix +:+ "_komoditas_kab sheets.") ;;
    set_summary_kab None
  else
    let numeric_columns := select_dtypes_numeric acc in
    let row_to_sum :=
      filter (fun col => col ∉ ["id_komoditas"; "ID"]) numeric_columns in
    selected ← lift (getitem_list acc row_to_sum);
    sum_row_kab ← lift (sum_row selected row_to_sum);
    set_summary_kab (Some sum_row_kab) ;;
    for_each ["id_prov"; "id_kab"] (fun col =>
      if decide (col ∈ columns acc) then
        let new_col := str_replace "id_" EmptyString col in
        s ← lift (getitem acc col);
        v ← lift (iloc0 s);
        summary ← gets summary_kab;
        match summary with
        | Some df => set_summary_kab (Some (setitem_scalar df new_col v))
        | None =>
          raise (TypeError "'NoneType' object does not support item assignment")
        end
      else print ("Column " +:+ col +:+ " not found in the data.")).

(** Lines 101-116: the sub-district table. *)
Definition process_kec : M unit :=
  acc ← gets result_kec;
  if empty acc then
    print ("No data found for id_kab " +:+ str_int kab_code +:+ " in the "
           +:+ table_prefix +:+ "_komoditas_kec sheets.")
  else
    grouped ← lift (groupby_sum "kec" columns_to_sum acc);
    set_result_kec grouped ;;
    for_each ["id_prov"; "id_kab"; "id_kec"] (fun col =>
      df ← gets result_kec;
      if decide (col ∈ columns df) then
        let new_col := str_replace "id_" EmptyString col in
        s ← lift (getitem df col);
        set_result_kec
          (setitem_series df new_col object
             (astype_str (default object (dtype_of df col)) <$> s))
      else print ("Column " +:+ col +:+ " not found in the kecamatan data.")) ;;
    df ← gets result_kec;
    selected ← lift (getitem_list df columns_to_sum);
    sums ← lift (sum_axis1 selected columns_to_sum);
    set_result_kec
      (setitem_series df "SUM"
         (foldr find_common_type int64 (cols selected).*2) sums).

(** [process_files(directory, kab_code, table_prefix)] *)
Definition process_files : M (option DataFrame * option DataFrame) :=
  let files :=
    glob w (os_path_join directory ("*" +:+ table_prefix +:+ "*.xlsx")) in
  if bool_decide (files = []) then
    print ("No Excel files found with prefix '" +:+ table_prefix
           +:+ "' in directory: " +:+ directory) ;;
    mret (None, None)
  else
    set_result_kab DataFrame_new ;;
    set_result_kec DataFrame_new ;;
    for_each files loop_body ;;
    process_kab ;;
    process_kec ;;
    skab ← gets summary_kab;
    rkec ← gets result_kec;
    mret (skab, Some rkec).

End ProcessFiles.

(** ** Example workbooks *)

Definition mkrow (l : list (string * value)) : row := list_to_map l.

(** A sub-district row with its six measures. *)
Definition kec_row (kab kec : Z) (m1 m2 m3 m4 m5 m6 : Z) : row :=
  mkrow [("kab", VInt kab); ("kec", VInt kec);
         ("n_rtup_tunggal", VInt m1); ("n_rtup_campuran", VInt m2);
         ("n_rtup_tumpang_sari", VInt m3);
         ("n_rtup_asosiasi_antar_semusim", VInt m4);
         ("n_rtup_jumlah", VInt m5); ("n_rtup", VInt m6)].

Definition kec_cols : list (string * dtype) :=
  [("kab", int64); ("kec", int64);
   ("n_rtup_tunggal", int64); ("n_rtup_campuran", int64);
   ("n_rtup_tumpang_sari", int64);
   ("n_rtup_asosiasi_antar_semusim", int64);
   ("n_rtup_jumlah", int64); ("n_rtup", int64)].

(** A district row: code, identifier columns, commodity id and one measure. *)
Definition kab_row (kab : Z) (label prov : string) (komoditas n : Z) : row :=
  mkrow [("kab", VInt kab); ("id_kab", VStr label); ("id_prov", VStr prov);
         ("id_komoditas", VInt komoditas); ("n_rtup", VInt n)].

Definition kab_cols : list (string * dtype) :=
  [("kab", int64); ("id_kab", object); ("id_prov", object);
   ("id_komoditas", int64); ("n_rtup", int64)].

Definition sheet_kab_A : DataFrame :=
  mkDataFrame kab_cols
    [kab_row 7205 "[7205] BANGGAI" "[72] SULAWESI TENGAH" 3 10;
     kab_row 7206 "[7206] MOROWALI" "[72] SULAWESI TENGAH" 3 40].

Definition sheet_kab_B : DataFrame :=
  mkDataFrame kab_cols
    [kab_row 7205 "[7205] BANGGAI" "[72] SULAWESI TENGAH" 4 7].

Definition sheet_kec_A : DataFrame :=
  mkDataFrame kec_cols
    [kec_row 7205 20 1 0 0 0 1 4;
     kec_row 7205 10 2 1 0 0 3 10;
     kec_row 7206 10 9 9 9 9 9 9;
     kec_row 7205 10 1 1 1 0 3 5].

Definition sheet_kec_B : DataFrame :=
  mkDataFrame kec_cols [kec_row 7205 10 1 0 0 0 1 3].

(** Two good workbooks, [a_4_54.xlsx] and [b_4_54.xlsx]; any other path
    cannot be opened. *)
Definition world_AB : World :=
  mkWorld
    (fun _ => ["data/a_4_54.xlsx"; "data/b_4_54.xlsx"])
    (fun file sheet =>
       if decide (file = "data/a_4_54.xlsx") then
         if decide (sheet = "4_54_komoditas_kab") then Ok sheet_kab_A
         else if decide (sheet = "4_54_komoditas_kec") then Ok sheet_kec_A
         else Raise (ValueError ("Worksheet named '" +:+ sheet +:+ "' not found"))
       else if decide (file = "data/b_4_54.xlsx") then
         if decide (sheet = "4_54_komoditas_kab") then Ok sheet_kab_B
         else if decide (sheet = "4_54_komoditas_kec") then Ok sheet_kec_B
         else Raise (ValueError ("Worksheet named '" +:+ sheet +:+ "' not found"))
       else Raise (OSError ("No such file or directory: " +:+ repr file))).

(** The same directory where [b_4_54.xlsx] has lost its sub-district
    sheet: its district sheet still reads. *)
Definition world_B_no_kec : World :=
  mkWorld
    (glob world_AB)
    (fun file sheet =>
       if decide (file = "data/b_4_54.xlsx" ∧ sheet = "4_54_komoditas_kec")
       then Raise (ValueError ("Worksheet named '" +:+ sheet +:+ "' not found"))
       else read_excel world_AB file sheet).

(** A directory without candidate files. *)
Definition world_none : World :=
  mkWorld (fun _ => []) (fun file _ =>
    Raise (OSError ("No such file or directory: " +:+ repr file))).

(** ** What a workbook contributes *)

Section Contributions.

Variable w : World.
Variable kab_code : Z.
Variable table_prefix : string.

(** Lines 63-64: the rows of the district sheet with the requested code. *)
Definition district_data_kab (file : string) : result DataFrame :=
  df ← read_excel w file (table_prefix +:+ "_komoditas_kab");
  kab ← getitem df "kab";
  mret (getitem_mask df (eq_scalar kab kab_code)).

(** Lines 68-69: the rows of the sub-district sheet with the requested code. *)
Definition district_data_kec (file : string) : result DataFrame :=
  df ← read_excel w file (table_prefix +:+ "_komoditas_kec");
  kab ← getitem df "kab";
  mret (getitem_mask df (eq_scalar kab kab_code)).

(** Lines 68-73: the per-file sums, tagged with the file name. *)
Definition summed_kec (file : string) : result DataFrame :=
  d ← district_data_kec file;
  g ← groupby_sum "kec" columns_to_sum d;
  mret (setitem_scalar g "file" (VStr (basename file))).

(** The exception that ends the [try] on this file, if any. *)
Definition file_error (file : string) : option exn :=
  match district_data_kab file with
  | Raise e => Some e
  | Ok _ =>
    match summed_kec file with
    | Raise e => Some e
    | Ok _ => None
    end
  end.

(** The file is processed without an exception. *)
Definition succeeds (file : string) : Prop := file_error file = None.

(** Its district sheet is read and filtered without an exception. *)
Definition kab_succeeds (file : string) : Prop :=
  exists d, district_data_kab file = Ok d.

(** The matching district rows of a file whose district sheet is read and
    filtered. *)
Definition kab_rows (file : string) : list row :=
  match district_data_kab file with
  | Ok d => rows d
  | Raise _ => []
  end.

(** The matching sub-district rows of a successfully processed file. *)
Definition kec_rows (file : string) : list row :=
  match file_error file, district_data_kec file with
  | None, Ok d => rows d
  | _, _ => []
  end.

(** The text cells in the measure columns are what makes a sum fail or
    turn into a concatenation: this says the matching sub-district rows of
    the file, if its sheet can be read, have none. *)
Definition numeric_measures (file : string) : Prop :=
  forall d r c, district_data_kec file = Ok d -> r ∈ rows d ->
    c ∈ columns_to_sum -> is_numeric (cell c r).

End Contributions.

#[global] Instance succeeds_dec w k p file : Decision (succeeds w k p file).
Proof. unfold succeeds. apply _. Defined.

#[global] Instance kab_succeeds_dec w k p file : Decision (kab_succeeds w k p file).
Proof.
  unfold kab_succeeds. destruct (district_data_kab w k p file) as [d|e].
  - left. by exists d.
  - right. by intros [d ?].
Defined.


(** The new name of an identifier column. *)
Definition new_col (col : string) : string := str_replace "id_" EmptyString col.

(** ** Definitions used in the statements *)

Definition kec_not_found : list string :=
  ["Column id_prov not found in the kecamatan data.";
   "Column id_kab not found in the kecamatan data.";
   "Column id_kec not found in the kecamatan data."].

Definition add_SUM (g : DataFrame) : result DataFrame :=
  selected ← getitem_list g columns_to_sum;
  sums ← sum_axis1 selected columns_to_sum;
  mret (setitem_series g "SUM"
          (foldr find_common_type int64 (cols selected).*2) sums).

Definition is_int (v : value) : Prop := exists z, v = VInt z.

Definition files_of (w : World) (directory table_prefix : string) : list string :=
  glob w (os_path_join directory ("*" +:+ table_prefix +:+ "*.xlsx")).

Definition run_AB : list string * result (option DataFrame * option DataFrame) :=
  call (process_files world_AB "data" 7205 "4_54").

Definition summary_AB : option DataFrame :=
  match run_AB.2 with
  | Ok (s, _) => s
  | Raise _ => None
  end.

Definition table_AB : DataFrame :=
  match run_AB.2 with
  | Ok (_, Some t) => t
  | _ => DataFrame_new
  end.

Definition error_line (file : string) (e : exn) : string :=
  "Error processing file " +:+ file +:+ ": " +:+ str_exn e.

(** The state after the loop body has run on one file. *)
Definition after_file (w : World) (k : Z) (p : string) (file : string)
    (st : state) : state :=
  let out := stdout st ++ ["Processing file: " +:+ file] in
  match district_data_kab w k p file with
  | Raise e =>
    mkState (result_kab st) (result_kec st) (summary_kab st)
      (out ++ [error_line file e])
  | Ok dk =>
    match summed_kec w k p file with
    | Raise e =>
      mkState (concat (result_kab st) dk) (result_kec st) (summary_kab st)
        (out ++ [error_line file e])
    | Ok sk =>
      mkState (concat (result_kab st) dk) (concat (result_kec st) sk)
        (summary_kab st) out
    end
  end.

Definition to_option {A : Type} (r : result A) : option A :=
  match r with
  | Ok a => Some a
  | Raise _ => None
  end.

(** The frames appended to [result_kab] and to [result_kec], file by file. *)
Definition kab_pieces (w : World) (k : Z) (p : string) (files : list string)
    : list DataFrame :=
  omap (fun file => to_option (district_data_kab w k p file)) files.

Definition kec_pieces (w : World) (k : Z) (p : string) (files : list string)
    : list DataFrame :=
  omap (fun file =>
          match file_error w k p file with
          | None => to_option (summed_kec w k p file)
          | Some _ => None
          end) files.

(** Line 86. *)
Definition row_to_sum (acc : DataFrame) : list string :=
  filter (fun col => col ∉ ["id_komoditas"; "ID"]) (select_dtypes_numeric acc).

(** Lines 89-90: the one-row frame of the sums. *)
Definition sums_frame (acc : DataFrame) : result DataFrame :=
  selected ← getitem_list acc (row_to_sum acc);
  sum_row selected (row_to_sum acc).

(** One turn of the loop of lines 93-98, for a non-empty [acc]. *)
Definition attach (acc : DataFrame) (col : string) (summary : DataFrame)
    : DataFrame :=
  if decide (col ∈ columns acc) then
    match rows acc with
    | r0 :: _ => setitem_scalar summary (new_col col) (cell col r0)
    | [] => summary
    end
  else summary.

Definition kab_not_found (acc : DataFrame) (col : string) : list string :=
  if decide (col ∈ columns acc) then []
  else ["Column " +:+ col +:+ " not found in the data."].

Definition district_summary (acc : DataFrame) : result (option DataFrame) :=
  if empty acc then Ok None
  else s ← sums_frame acc; Ok (Some (attach acc "id_kab" (attach acc "id_prov" s))).

Definition kab_log (k : Z) (p : string) (acc : DataFrame) : list string :=
  if empty acc then
    ["No data found for id_kab " +:+ str_int k +:+ " in the "
     +:+ p +:+ "_komoditas_kab sheets."]
  else kab_not_found acc "id_prov" ++ kab_not_found acc "id_kab".

(** The total of a column of the accumulated district rows. *)
Definition column_total (acc : DataFrame) (c : string) : value :=
  VInt (nansum (cell c <$> rows acc)).

(** The row of the totals and the one-row frame that holds it. *)
Definition sums_row (acc : DataFrame) : row :=
  list_to_map ((fun c => (c, column_total acc c)) <$> row_to_sum acc).

Definition sums_base (acc : DataFrame) (dt : dtype) : DataFrame :=
  mkDataFrame ((fun c => (c, dt)) <$> row_to_sum acc) [sums_row acc].

Definition accumulated_kab (w : World) (k : Z) (p : string)
    (files : list string) : DataFrame :=
  foldl concat DataFrame_new (kab_pieces w k p files).

Definition accumulated_kec (w : World) (k : Z) (p : string)
    (files : list string) : DataFrame :=
  foldl concat DataFrame_new (kec_pieces w k p files).

(** Lines 101-116 as a function of the accumulated per-file sums. *)
Definition kec_table (acc : DataFrame) : result DataFrame :=
  if empty acc then Ok acc
  else g ← groupby_sum "kec" columns_to_sum acc; add_SUM g.

(** The sum of column [c] over the rows of [R] with sub-district code [k]. *)
Definition group_total (R : list row) (k : value) (c : string) : value :=
  VInt (nansum (cell c <$> filter (fun r => cell "kec" r = k) R)).

Definition grouped_row (R : list row) (k : value) : row :=
  <["kec" := k]>
    (list_to_map ((fun c => (c, group_total R k c)) <$> columns_to_sum)).

Definition grouped_rows (R : list row) : list row :=
  grouped_row R <$> group_keys (cell "kec" <$> R).

Definition numeric_rows (R : list row) : Prop :=
  forall r c, r ∈ R -> c ∈ columns_to_sum -> is_numeric (cell c r).

(** A tagged row of per-file sums: what [summed_kec['file'] = ...] makes
    of a row. *)
Definition tagged (file : string) (r : row) : row :=
  <["file" := VStr (basename file)]> r.

(** The rows a file adds to [result_kec]. *)
Definition piece_rows (w : World) (k : Z) (p : string) (file : string)
    : list row :=
  match file_error w k p file, summed_kec w k p file with
  | None, Ok s => rows s
  | _, _ => []
  end.

(** A row with its [SUM] cell. *)
Definition with_SUM (r : row) : row :=
  <["SUM" := VInt (nansum ((fun c => cell c r) <$> columns_to_sum))]> r.

#[global] Instance numeric_measures_dec w k p file :
  Decision (numeric_measures w k p file).
Proof.
  unfold numeric_measures.
  destruct (district_data_kec w k p file) as [d|e].
  - destruct (decide (Forall (fun r => Forall (fun c => is_numeric (cell c r))
                                              columns_to_sum) (rows d)))
      as [Hall|Hnot].
    + left. intros d' r c [= <-] Hr Hc.
      rewrite Forall_forall in Hall. specialize (Hall r Hr).
      rewrite Forall_forall in Hall. by apply Hall.
    + right. intros Hnum. apply Hnot, Forall_forall. intros r Hr.
      apply Forall_forall. intros c Hc. by eapply Hnum.
  - left. by intros d r c.
Defined.

(** All sub-district rows with the requested district code, over the
    successfully processed files in the order of the listing. *)
Definition all_kec_rows (w : World) (d : string) (k : Z) (p : string)
    : list row :=
  files_of w d p ≫= kec_rows w k p.

#[global] Instance is_int_dec v : Decision (is_int v).
Proof.
  destruct v as [z| |s]; [left; by exists z|right|right]; by intros [z ?].
Defined.

(** The matching rows of the sub-district sheet of a file, if it reads. *)
Definition kec_matching_rows (w : World) (k : Z) (p : string) (file : string)
    : list row :=
  match district_data_kec w k p file with
  | Ok d => rows d
  | Raise _ => []
  end.

(** No row of the two sheets of the file has the requested district code. *)
Definition no_match (w : World) (k : Z) (p : string) (file : string) : Prop :=
  kab_rows w k p file = [] /\ kec_matching_rows w k p file = [].

#[global] Instance no_match_dec w k p file : Decision (no_match w k p file).
Proof. unfold no_match. apply _. Defined.

Definition missing_kec_sheet : exn :=
  ValueError "Worksheet named '4_54_komoditas_kec' not found".



(** All matching district rows, over the files whose district sheet is
    read and filtered, in the order of the listing and of the sheets. *)
Definition all_kab_rows (w : World) (d : string) (k : Z) (p : string)
    : list row :=
  files_of w d p ≫= kab_rows w k p.

Definition the_summary_AB : DataFrame := default DataFrame_new summary_AB.

(** A sub-district sheet that has the three identifier columns. *)
Definition sheet_kec_ids : DataFrame :=
  mkDataFrame
    (kec_cols ++ [("id_prov", object); ("id_kab", object); ("id_kec", object)])
    [<["id_prov" := VStr "[72] SULAWESI TENGAH"]>
       (<["id_kab" := VStr "[7205] BANGGAI"]>
          (<["id_kec" := VStr "[010] TOILI"]> (kec_row 7205 10 2 1 0 0 3 10)))].

(** One workbook, [c_4_54.xlsx], with that sheet. *)
Definition world_ids : World :=
  mkWorld
    (fun _ => ["data/c_4_54.xlsx"])
    (fun file sheet =>
       if decide (file = "data/c_4_54.xlsx") then
         if decide (sheet = "4_54_komoditas_kab") then Ok sheet_kab_A
         else if decide (sheet = "4_54_komoditas_kec") then Ok sheet_kec_ids
         else Raise (ValueError ("Worksheet named '" +:+ sheet +:+ "' not found"))
       else Raise (OSError ("No such file or directory: " +:+ repr file))).

(** ** Further worlds and definitions used in the statements *)


(** A sub-district sheet whose n_rtup column holds a text: pandas reads
    the column as object. *)
Definition sheet_kec_text : DataFrame :=
  mkDataFrame
    [("kab", int64); ("kec", int64);
     ("n_rtup_tunggal", int64); ("n_rtup_campuran", int64);
     ("n_rtup_tumpang_sari", int64);
     ("n_rtup_asosiasi_antar_semusim", int64);
     ("n_rtup_jumlah", int64); ("n_rtup", object)]
    [<["n_rtup" := VStr "n/a"]> (kec_row 7205 10 2 1 0 0 3 0)].

(** [a_4_54.xlsx] with that sheet, [b_4_54.xlsx] as before. *)
Definition world_text : World :=
  mkWorld
    (glob world_AB)
    (fun file sheet =>
       if decide (file = "data/a_4_54.xlsx" ∧ sheet = "4_54_komoditas_kec")
       then Ok sheet_kec_text
       else read_excel world_AB file sheet).

(** What the loop prints for one file. *)
Definition file_lines (w : World) (k : Z) (p : string) (file : string)
    : list string :=
  ("Processing file: " +:+ file)
  :: match file_error w k p file with
     | Some e => [error_line file e]
     | None => []
     end.

(** What lines 101-116 print. *)
Definition kec_log (k : Z) (p : string) (acc : DataFrame) : list string :=
  if empty acc then
    ["No data found for id_kab " +:+ str_int k +:+ " in the "
     +:+ p +:+ "_komoditas_kec sheets."]
  else kec_not_found.

(** The exception of ["n/a" + 10]. *)
Definition str_plus_int : exn :=
  TypeError "can only concatenate str (not 'int') to str".

(** ** The interactive part: [get_input_with_default] and the main block

    [input] shows its prompt on [stdout] and takes the next line of
    [stdin]; at the end of the input it raises [EOFError].  The texts typed
    and the district labels are taken to be ASCII: [lower] and [strip] are
    modelled on ASCII characters. *)

(** The exceptions of this part: those of [process_files] and of the
    conversions, the end of the input, and the attribute error of [None]. *)
Inductive io_exn : Type :=
  | EOFError
  | AttributeError (msg : string)
  | Uncaught (e : exn).

Inductive io_result (A : Type) : Type :=
  | Returns (a : A)
  | Raises (e : io_exn).
Arguments Returns {A} a.
Arguments Raises {A} e.

Definition prompt_line (prompt str_default : string) : string :=
  prompt +:+ " (default: " +:+ str_default +:+ "): ".

Definition invalid_line (name : string) : string :=
  "Invalid input. Please enter a valid " +:+ name +:+ ".".

(** [get_input_with_default(prompt, default, input_type)] (lines 17-33).
    [str_default] is [str(default)], [input_type] the conversion and [name]
    its [__name__].  The loop ends at the first line that is empty or that
    the conversion accepts; only [ValueError] is caught. *)
Fixpoint get_input_with_default {A : Type} (prompt : string) (default : A)
    (str_default : string) (input_type : string -> result A) (name : string)
    (stdin : list string) (out : list string)
    : list string * list string * io_result A :=
  match stdin with
  | [] => ([], out ++ [prompt_line prompt str_default], Raises EOFError)
  | user_input :: stdin' =>
    let out := out ++ [prompt_line prompt str_default] in
    if decide (user_input = EmptyString) then (stdin', out, Returns default)
    else
      match input_type user_input with
      | Ok a => (stdin', out, Returns a)
      | Raise (ValueError _) =>
        get_input_with_default prompt default str_default input_type name
          stdin' (out ++ [invalid_line name])
      | Raise e => (stdin', out, Raises (Uncaught e))
      end
  end.

(** [s.split(sep)[-1]] for a separator of one character: what follows the
    last [sep], the whole text when there is none. *)
Fixpoint after_last_from (sep : ascii) (acc s : string) : string :=
  match s with
  | EmptyString => acc
  | String c s' =>
    if Ascii.eqb c sep then after_last_from sep EmptyString s'
    else after_last_from sep (acc +:+ String c EmptyString) s'
  end.

Definition after_last (sep : ascii) (s : string) : string :=
  after_last_from sep EmptyString s.

(** The ASCII characters that [str.strip] removes. *)
Definition is_space (c : ascii) : bool :=
  let n := nat_of_ascii c in
  ((9 <=? n) && (n <=? 13) || (28 <=? n) && (n <=? 32))%nat.

Fixpoint lstrip (s : string) : string :=
  match s with
  | EmptyString => EmptyString
  | String c s' => if is_space c then lstrip s' else s
  end.

Fixpoint rstrip (s : string) : string :=
  match s with
  | EmptyString => EmptyString
  | String c s' =>
    match rstrip s' with
    | EmptyString => if is_space c then EmptyString else String c EmptyString
    | t => String c t
    end
  end.

(** [s.strip()] *)
Definition strip (s : string) : string := rstrip (lstrip s).

Definition lower_char (c : ascii) : ascii :=
  let n := nat_of_ascii c in
  if ((65 <=? n) && (n <=? 90))%nat then ascii_of_nat (n + 32) else c.

(** [s.lower()] *)
Fixpoint lower (s : string) : string :=
  match s with
  | EmptyString => EmptyString
  | String c s' => String (lower_char c) (lower s')
  end.

(** [str(v)] of a cell of a column of dtype [d]. *)
Definition str_value (d : dtype) (v : value) : string :=
  match astype_str d v with
  | VStr s => s
  | _ => EmptyString
  end.

(** What the main block needs besides the workbooks: the base directory,
    [int] on a text, what opening the [ExcelWriter] on a file name does,
    and what closing it does, that is, saving the workbook of the given
    name with the given sheets. *)
Record Env : Type := mkEnv {
  world : World;
  base_directory : string;
  py_int : string -> result Z;
  excel_open : string -> result unit;
  excel_save : string -> list (string * DataFrame) -> result unit
}.

(** Lines 138-143. *)
Definition kab_name_of (summary_kab : option DataFrame) : string :=
  match summary_kab with
  | Some s =>
    if decide ("kab" ∈ columns s) then
      strip (after_last "]"
               (str_value (default object (dtype_of s "kab"))
                          (cell "kab" (hd ∅ (rows s)))))
    else "unknown"
  | None => "unknown"
  end.

(** Line 146. *)
Definition output_file_of (komoditas kab_name : string) : string :=
  "summary_komoditas_" +:+ lower komoditas +:+ "_" +:+ lower kab_name
  +:+ ".xlsx".

(** The run of the main block. *)
Record run : Type := mkRun {
  rest_of_stdin : list string;
  printed : list string;
  (** the name and the sheets given to the writer, once it is opened *)
  workbook : option (string * list (string * DataFrame));
  outcome : io_result unit
}.

Definition no_attribute_empty : io_exn :=
  AttributeError "'NoneType' object has no attribute 'empty'".

(** Lines 149-158.  If the writer cannot be opened, its exception goes
    on and nothing is written.  An exception inside the [with] still
    closes the writer; if closing raises too, that is the exception that
    goes on. *)
Definition write_output (env : Env) (output_file : string)
    (summary_kab result_kec : option DataFrame)
    (stdin out : list string) : run :=
  let sheets1 :=
    match summary_kab with
    | Some s => [("Kabupaten", s)]
    | None => []
    end in
  let out1 :=
    match summary_kab with
    | Some _ => out ++ ["Saved Kabupaten data to " +:+ output_file]
    | None => out
    end in
  match excel_open env output_file with
  | Raise e => mkRun stdin out None (Raises (Uncaught e))
  | Ok _ =>
    match result_kec with
    | None =>
      mkRun stdin out1 (Some (output_file, sheets1))
        (match excel_save env output_file sheets1 with
         | Ok _ => Raises no_attribute_empty
         | Raise e => Raises (Uncaught e)
         end)
    | Some t =>
      let sheets2 :=
        if empty t then sheets1 else sheets1 ++ [("Kecamatan", t)] in
      let out2 :=
        if empty t then out1
        else out1 ++ ["Saved Kecamatan data to " +:+ output_file] in
      match excel_save env output_file sheets2 with
      | Ok _ =>
        mkRun stdin (out2 ++ ["Data has been saved to " +:+ output_file])
          (Some (output_file, sheets2)) (Returns tt)
      | Raise e =>
        mkRun stdin out2 (Some (output_file, sheets2)) (Raises (Uncaught e))
      end
    end
  end.

(** Lines 121-158. *)
Definition main (env : Env) (stdin : list string) : run :=
  let out := ["Enter the name of the komoditas (e.g., jeruk): "] in
  match stdin with
  | [] => mkRun [] out None (Raises EOFError)
  | komoditas :: stdin =>
    match get_input_with_default "Enter the kabupaten code (e.g., 7205): "
            7205 "7205" (py_int env) "int" stdin out with
    | (stdin, out, Raises e) => mkRun stdin out None (Raises e)
    | (stdin, out, Returns kab_code) =>
      match get_input_with_default "Enter the table number prefix (e.g., 4_54): "
              "4_54" "4_54" Ok "str" stdin out with
      | (stdin, out, Raises e) => mkRun stdin out None (Raises e)
      | (stdin, out, Returns table_prefix) =>
        let directory := os_path_join (base_directory env) komoditas in
        let (lines, r) :=
          call (process_files (world env) directory kab_code table_prefix) in
        let out := out ++ lines in
        match r with
        | Raise e => mkRun stdin out None (Raises (Uncaught e))
        | Ok (summary_kab, result_kec) =>
          let kab_name := kab_name_of summary_kab in
          let output_file := output_file_of komoditas kab_name in
          write_output env output_file summary_kab result_kec stdin out
        end
      end
    end
  end.

(** A decimal reader for the examples: digits only. *)
Definition digits_only (s : string) : result Z :=
  if decide (s = EmptyString) then
    Raise (ValueError "invalid literal for int() with base 10: ''")
  else
    match NilEmpty.uint_of_string s with
    | Some u => Ok (Z.of_uint u)
    | None =>
      Raise (ValueError ("invalid literal for int() with base 10: " +:+ repr s))
    end.

(** The two good workbooks in the directory [data/jeruk], the only
    directory that has files, and an environment over it in which saving
    succeeds. *)
Definition world_jeruk : World :=
  mkWorld
    (fun pattern =>
       if decide (pattern = "data/jeruk/*4_54*.xlsx")
       then ["data/jeruk/a_4_54.xlsx"; "data/jeruk/b_4_54.xlsx"]
       else [])
    (fun file sheet =>
       if decide (file = "data/jeruk/a_4_54.xlsx")
       then read_excel world_AB "data/a_4_54.xlsx" sheet
       else if decide (file = "data/jeruk/b_4_54.xlsx")
       then read_excel world_AB "data/b_4_54.xlsx" sheet
       else Raise (OSError ("No such file or directory: " +:+ repr file))).

Definition env_jeruk : Env :=
  mkEnv world_jeruk "data" digits_only (fun _ => Ok tt) (fun _ _ => Ok tt).

(** A district sheet without identifier columns, in which two rows have
    the code 7205, and the directory [data/jeruk] with one workbook that
    has it. *)
Definition sheet_kab_codes : DataFrame :=
  mkDataFrame [("kab", int64); ("n_rtup", int64)]
    [mkrow [("kab", VInt 7205); ("n_rtup", VInt 10)];
     mkrow [("kab", VInt 7206); ("n_rtup", VInt 40)];
     mkrow [("kab", VInt 7205); ("n_rtup", VInt 7)]].

Definition world_codes : World :=
  mkWorld
    (fun pattern =>
       if decide (pattern = "data/jeruk/*4_54*.xlsx")
       then ["data/jeruk/a_4_54.xlsx"] else [])
    (fun file sheet =>
       if decide (file = "data/jeruk/a_4_54.xlsx") then
         if decide (sheet = "4_54_komoditas_kab") then Ok sheet_kab_codes
         else read_excel world_AB "data/a_4_54.xlsx" sheet
       else Raise (OSError ("No such file or directory: " +:+ repr file))).

Definition env_codes : Env :=
  mkEnv world_codes "data" digits_only (fun _ => Ok tt) (fun _ _ => Ok tt).



(** The conversion rejects the line: the loop of [get_input_with_default]
    prints its complaint and asks again. *)
Definition rejected {A : Type} (input_type : string -> result A)
    (line : string) : Prop :=
  line <> EmptyString /\ exists msg, input_type line = Raise (ValueError msg).

(** What the loop shows for the lines it rejects. *)
Definition retries (prompt str_default name : string) (bad : list string)
    : list string :=
  bad ≫= fun _ => [prompt_line prompt str_default; invalid_line name].

(** What the loop makes of a line it does not reject. *)
Definition reply {A : Type} (default : A) (input_type : string -> result A)
    (line : string) : io_result A :=
  if decide (line = EmptyString) then Returns default
  else
    match input_type line with
    | Ok a => Returns a
    | Raise e => Raises (Uncaught e)
    end.

(** What the main block has shown when the three inputs are read, [bad]
    being the rejected lines typed for the district code. *)
Definition prompts (bad : list string) : list string :=
  "Enter the name of the komoditas (e.g., jeruk): "
  :: retries "Enter the kabupaten code (e.g., 7205): " "7205" "int" bad
  ++ [prompt_line "Enter the kabupaten code (e.g., 7205): " "7205";
      prompt_line "Enter the table number prefix (e.g., 4_54): " "4_54"].

(** The names of the sheets that the data call for. *)
Definition sheet_names (w : World) (d : string) (k : Z) (p : string)
    : list string :=
  (if decide (all_kab_rows w d k p = []) then [] else ["Kabupaten"])
  ++ (if decide (Forall (fun r => cell "kec" r = VNaN) (all_kec_rows w d k p))
      then [] else ["Kecamatan"]).

(** * Properties *)

Ltac munfold :=
  unfold mbind, M_bind, result_bind, mret, M_ret, result_ret, lift, raise,
    gets, print, set_result_kab, set_result_kec, set_summary_kab, modify.

(** ** The result monad and the state monad *)

Lemma mapM_Ok {A B : Type} (f : A -> result B) (g : A -> B) (l : list A) :
  (forall x, x ∈ l -> f x = Ok (g x)) -> mapM f l = Ok (g <$> l).
Proof.
  induction l as [|x l IH]; intros Hf; [done|].
  cbn. rewrite Hf; [|left]. cbn.
  rewrite IH; [done|]. intros y Hy. apply Hf. by right.
Qed.

Lemma mapM_Ok_inv {A B : Type} (f : A -> result B) (l : list A) (k : list B) :
  mapM f l = Ok k -> Forall2 (fun x y => f x = Ok y) l k.
Proof.
  revert k. induction l as [|x l IH]; intros k; cbn.
  - intros [= <-]. constructor.
  - destruct (f x) as [y|e] eqn:Hx; cbn; [|done].
    destruct (mapM f l) as [k'|e] eqn:Hl; cbn; [|done].
    intros [= <-]. constructor; [done|]. by apply IH.
Qed.




Lemma try_body_spec w k p file st :
  try_body w k p file st =
  match district_data_kab w k p file with
  | Raise e => (st, Raise e)
  | Ok dk =>
    let st1 := mkState (concat (result_kab st) dk) (result_kec st)
                       (summary_kab st) (stdout st) in
    match summed_kec w k p file with
    | Raise e => (st1, Raise e)
    | Ok sk =>
      (mkState (result_kab st1) (concat (result_kec st1) sk)
               (summary_kab st1) (stdout st1), Ok tt)
    end
  end.
Proof.
  unfold try_body, district_data_kab, summed_kec, district_data_kec.
  unfold mbind, M_bind, result_bind, mret, M_ret, result_ret, lift, gets,
    set_result_kab, set_result_kec, modify.
  destruct (read_excel w file (p +:+ "_komoditas_kab")) as [dfk|e]; [|done].
  destruct (getitem dfk "kab") as [kab|e]; [|done]. cbn.
  destruct (read_excel w file (p +:+ "_komoditas_kec")) as [dfc|e]; [|done].
  destruct (getitem dfc "kab") as [kab'|e]; [|done].
  destruct (groupby_sum "kec" columns_to_sum _) as [g|e]; done.
Qed.

Lemma not_in_list (c : string) (l : list string) :
  bool_decide (c ∈ l) = false -> c ∉ l.
Proof. intros H Hin. by rewrite bool_decide_eq_true_2 in H. Qed.

Lemma fst_graph {A : Type} (f : string -> A) (sel : list string) :
  ((fun c => (c, f c)) <$> sel).*1 = sel.
Proof. rewrite <- list_fmap_compose. by rewrite list_fmap_id. Qed.

Lemma assoc_graph {A : Type} (f : string -> A) (sel : list string) (c : string) :
  c ∈ sel -> assoc c ((fun c => (c, f c)) <$> sel) = Some (f c).
Proof.
  induction sel as [|c' sel IH]; [by intros ?%elem_of_nil|].
  intros Hc. cbn. destruct (decide (c' = c)) as [->|Hne]; [done|].
  apply IH. apply elem_of_cons in Hc as [->|]; done.
Qed.

Lemma assoc_Some_elem {A : Type} (c : string) (l : list (string * A)) (a : A) :
  assoc c l = Some a -> c ∈ l.*1.
Proof.
  induction l as [|[c' a'] l IH]; [done|]. cbn.
  destruct (decide (c' = c)) as [->|Hne]; [left|right; auto].
Qed.

Lemma assoc_None_elem {A : Type} (c : string) (l : list (string * A)) :
  assoc c l = None -> c ∉ l.*1.
Proof.
  induction l as [|[c' a'] l IH]; [intros _ ?%elem_of_nil; done|]. cbn.
  destruct (decide (c' = c)) as [->|Hne]; [done|].
  intros H [->|Hin]%elem_of_cons; [done|]. by apply IH.
Qed.

(** ** The group-by *)

Lemma groupby_sum_Ok key sel df g :
  groupby_sum key sel df = Ok g ->
  exists dby rs,
    dtype_of df key = Some dby /\
    (forall c, c ∈ sel -> c ∈ columns df) /\
    mapM (group_row df key sel) (group_keys (cell key <$> rows df)) = Ok rs /\
    g = mkDataFrame
          ((key, dby) :: ((fun c => (c, default object (dtype_of df c))) <$> sel))
          rs.
Proof.
  unfold groupby_sum. destruct (dtype_of df key) as [dby|]; [|done].
  destruct (filter _ sel) as [|c bad] eqn:Hbad; [|done].
  intros Hg. exists dby.
  destruct (mapM _ (group_keys _)) as [rs|e] eqn:Hrs; [|done].
  exists rs. split; [done|]. split; [|split; [done|]].
  - intros c Hc. destruct (decide (c ∈ columns df)) as [|Hn]; [done|].
    assert (c ∈ filter (fun c => c ∉ columns df) sel) as Hin
      by by apply list_elem_of_filter.
    rewrite Hbad in Hin. by apply elem_of_nil in Hin.
  - cbn in Hg. by injection Hg as <-.
Qed.

Lemma groupby_sum_columns key sel df g :
  groupby_sum key sel df = Ok g -> columns g = key :: sel.
Proof.
  intros (dby & rs & _ & _ & _ & ->)%groupby_sum_Ok.
  unfold columns. cbn. by rewrite fst_graph.
Qed.

(** ** The sub-district table (lines 101-116) *)

Lemma process_kec_spec k p st :
  process_kec k p st =
  if empty (result_kec st) then
    (mkState (result_kab st) (result_kec st) (summary_kab st)
       (stdout st ++ ["No data found for id_kab " +:+ str_int k +:+ " in the "
                      +:+ p +:+ "_komoditas_kec sheets."]), Ok tt)
  else
    match groupby_sum "kec" columns_to_sum (result_kec st) with
    | Raise e => (st, Raise e)
    | Ok g =>
      let out := stdout st ++ kec_not_found in
      match add_SUM g with
      | Raise e => (mkState (result_kab st) g (summary_kab st) out, Raise e)
      | Ok df => (mkState (result_kab st) df (summary_kab st) out, Ok tt)
      end
    end.
Proof.
  unfold process_kec, add_SUM. munfold.
  destruct (empty (result_kec st)); [done|].
  destruct (groupby_sum "kec" columns_to_sum (result_kec st)) as [g|e] eqn:Hg;
    [|done].
  apply groupby_sum_columns in Hg.
  cbn [for_each]. munfold. cbn [result_kec result_kab summary_kab stdout].
  repeat (rewrite Hg; rewrite decide_False by (apply not_in_list; reflexivity);
          cbn -[columns columns_to_sum getitem_list sum_axis1 setitem_series]).
  unfold kec_not_found. rewrite <- !app_assoc.
  destruct (getitem_list g columns_to_sum) as [sel|e]; [|done].
  destruct (sum_axis1 sel columns_to_sum) as [sums|e]; done.
Qed.

(** ** The order of the group keys *)

Lemma value_compare_eq a b : value_compare a b = Eq -> a = b.
Proof.
  destruct a, b; cbn; try done.
  - by intros ->%Z.compare_eq.
  - by intros ->%String.compare_eq_iff.
Qed.

Lemma value_compare_antisym a b :
  value_compare a b = CompOpp (value_compare b a).
Proof.
  destruct a, b; cbn; try done.
  - apply Z.compare_antisym.
  - apply String.compare_antisym.
Qed.

Lemma value_compare_refl a : value_compare a a = Eq.
Proof.
  destruct a; cbn; [apply Z.compare_refl|done|].
  by apply OrderedTypeEx.String_as_OT.cmp_eq.
Qed.

Lemma value_lt_trans a b c : value_lt a b -> value_lt b c -> value_lt a c.
Proof.
  unfold value_lt. destruct a, b, c; cbn; try done.
  - rewrite !Z.compare_lt_iff. lia.
  - intros H1 H2. apply OrderedTypeEx.String_as_OT.cmp_lt.
    eapply OrderedTypeEx.String_as_OT.lt_trans;
      by apply OrderedTypeEx.String_as_OT.cmp_lt.
Qed.

Lemma value_le_lt_or_eq a b : value_le a b <-> value_lt a b \/ a = b.
Proof.
  unfold value_le, value_lt. split.
  - destruct (value_compare a b) eqn:H; [|by left|done].
    right. by apply value_compare_eq.
  - intros [->| ->]; [done|]. by rewrite value_compare_refl.
Qed.

Lemma value_le_total : Total value_le.
Proof.
  intros a b. unfold value_le. rewrite (value_compare_antisym b a).
  destruct (value_compare a b); cbn; [left|left|right]; done.
Qed.

Lemma value_le_trans : Transitive value_le.
Proof.
  intros a b c. rewrite !value_le_lt_or_eq.
  intros [H1| ->] [H2| ->]; eauto using value_lt_trans.
Qed.

Lemma value_lt_int x y : value_lt (VInt x) (VInt y) <-> x < y.
Proof. unfold value_lt. cbn. by rewrite Z.compare_lt_iff. Qed.

Lemma StronglySorted_strict (l : list value) :
  StronglySorted value_le l -> NoDup l -> StronglySorted value_lt l.
Proof.
  induction 1 as [|x l Hs IH Hx]; intros Hnd; [constructor|].
  apply NoDup_cons in Hnd as [Hnotin Hnd].
  constructor; [by apply IH|].
  rewrite Forall_forall in Hx. apply Forall_forall. intros y Hy.
  destruct (proj1 (value_le_lt_or_eq x y) (Hx y Hy)) as [Hlt | ->]; [done|].
  by destruct Hnotin.
Qed.

Lemma group_keys_elem (s : list value) (k : value) :
  k ∈ group_keys s <-> k ∈ s /\ k <> VNaN.
Proof.
  unfold group_keys. rewrite merge_sort_Permutation, elem_of_remove_dups.
  rewrite list_elem_of_filter. by destruct k; cbn; intuition.
Qed.

Lemma group_keys_NoDup (s : list value) : NoDup (group_keys s).
Proof.
  unfold group_keys. rewrite merge_sort_Permutation. apply NoDup_remove_dups.
Qed.

Lemma group_keys_sorted (s : list value) : StronglySorted value_lt (group_keys s).
Proof.
  apply StronglySorted_strict; [|apply group_keys_NoDup].
  apply (@StronglySorted_merge_sort _ value_le _ value_le_trans value_le_total).
Qed.

(** ** Sums of numbers *)

Lemma nansum_cons v l : nansum (v :: l) = num_of v + nansum l.
Proof. done. Qed.


Lemma nansum_filter_notna l :
  nansum (filter (fun v => notna v = true) l) = nansum l.
Proof.
  induction l as [|v l IH]; [done|]. rewrite filter_cons.
  destruct (decide (notna v = true)) as [|Hna]; rewrite !nansum_cons, ?IH; [done|].
  by destruct v.
Qed.

Lemma py_sum_numeric l :
  Forall is_int l -> py_sum l = Ok (VInt (nansum l)).
Proof.
  destruct l as [|v l]; [done|]. intros [[a ->] Hl]%Forall_cons.
  cbn [py_sum]. rewrite nansum_cons. cbn [num_of]. revert a.
  induction Hl as [|x l [b ->] Hl IH]; intros a.
  - cbn. by rewrite Z.add_0_r.
  - cbn [foldl mbind result_bind py_add]. rewrite IH.
    do 2 f_equal. rewrite nansum_cons. cbn [num_of]. lia.
Qed.

Lemma Series_sum_numeric d l :
  Forall is_numeric l -> Series_sum d l = Ok (VInt (nansum l)).
Proof.
  intros Hl. destruct d; try done. unfold Series_sum.
  rewrite py_sum_numeric, nansum_filter_notna; [done|].
  apply Forall_forall. intros v [Hna Hv]%list_elem_of_filter.
  rewrite Forall_forall in Hl. specialize (Hl v Hv).
  destruct v; try done. by eexists.
Qed.

Lemma row_sum_numeric ds l :
  Forall is_int l -> row_sum ds l = Ok (VInt (nansum l)).
Proof.
  intros Hl. unfold row_sum. destruct (forallb numeric_dtype ds); [done|].
  assert (fillna0 <$> l = l) as ->.
  { induction Hl as [|v l [z ->] Hl IH]; cbn; [done|]. by rewrite IH. }
  by apply py_sum_numeric.
Qed.

(** ** The rows of the sub-district table *)

Lemma cell_insert c c' v (r : row) :
  cell c (<[c' := v]> r) = if decide (c' = c) then v else cell c r.
Proof. unfold cell. rewrite lookup_insert. by destruct (decide (c' = c)). Qed.

Lemma cell_insert_ne c c' v (r : row) :
  c' <> c -> cell c (<[c' := v]> r) = cell c r.
Proof. intros. rewrite cell_insert. by rewrite decide_False. Qed.

Lemma group_row_key df key sel k r :
  group_row df key sel k = Ok r -> cell key r = k.
Proof.
  unfold group_row. destruct (mapM _ sel) as [sums|e]; [|done].
  intros [= <-]. rewrite cell_insert. by rewrite decide_True.
Qed.

Lemma Forall2_fmap_eq {A B C : Type} (f : B -> C) (g : A -> C)
    (l : list A) (k : list B) :
  Forall2 (fun x y => f y = g x) l k -> f <$> k = g <$> l.
Proof. induction 1 as [|x y l k H _ IH]; cbn; [done|]. by rewrite H, IH. Qed.

Lemma groupby_sum_keys key sel df g :
  groupby_sum key sel df = Ok g ->
  cell key <$> rows g = group_keys (cell key <$> rows df).
Proof.
  intros (dby & rs & _ & _ & Hrs & ->)%groupby_sum_Ok. cbn.
  apply mapM_Ok_inv in Hrs. rewrite <- (list_fmap_id (group_keys _)).
  apply Forall2_fmap_eq. eapply Forall2_impl; [exact Hrs|].
  intros k r Hr. cbn. by apply group_row_key in Hr.
Qed.

Lemma sum_axis1_Ok df sel sums :
  sum_axis1 df sel = Ok sums ->
  Forall2 (fun r s =>
    row_sum ((fun c => default object (dtype_of df c)) <$> sel)
            ((fun c => cell c r) <$> sel) = Ok s) (rows df) sums.
Proof. apply mapM_Ok_inv. Qed.

Lemma getitem_list_Ok df sel d :
  getitem_list df sel = Ok d ->
  d = mkDataFrame ((fun c => (c, default object (dtype_of df c))) <$> sel) (rows df).
Proof.
  unfold getitem_list. destruct (filter _ sel); [|done]. by intros [= <-].
Qed.

Lemma set_col_new cl c d : c ∉ cl.*1 -> (set_col cl c d).*1 = cl.*1 ++ [c].
Proof.
  intros Hc. unfold set_col. rewrite decide_False by done.
  by rewrite fmap_app.
Qed.

Lemma add_SUM_Ok g df :
  "SUM" ∉ columns g ->
  add_SUM g = Ok df ->
  columns df = columns g ++ ["SUM"] /\
  exists ds sums,
    Forall2 (fun r s => row_sum ds ((fun c => cell c r) <$> columns_to_sum) = Ok s)
      (rows g) sums /\
    rows df = (fun p => <["SUM" := p.2]> p.1) <$> zip (rows g) sums.
Proof.
  intros Hnew. unfold add_SUM.
  destruct (getitem_list g columns_to_sum) as [sel|e] eqn:Hsel; [|done].
  apply getitem_list_Ok in Hsel. cbn.
  destruct (sum_axis1 sel columns_to_sum) as [sums|e] eqn:Hsums; [|done].
  intros [= <-]. apply sum_axis1_Ok in Hsums. split.
  - unfold columns, setitem_series. cbn. by apply set_col_new.
  - eexists _, sums. split; [|done]. by rewrite Hsel in Hsums.
Qed.

(** ** The call as a whole *)

Lemma process_files_spec w d k p :
  process_files w d k p state0 =
  if bool_decide (files_of w d p = []) then
    (mkState DataFrame_new DataFrame_new None
       ["No Excel files found with prefix '" +:+ p +:+ "' in directory: " +:+ d],
     Ok (None, None))
  else
    match for_each (files_of w d p) (loop_body w k p) state0 with
    | (st1, Raise e) => (st1, Raise e)
    | (st1, Ok _) =>
      match process_kab k p st1 with
      | (st2, Raise e) => (st2, Raise e)
      | (st2, Ok _) =>
        match process_kec k p st2 with
        | (st3, Raise e) => (st3, Raise e)
        | (st3, Ok _) => (st3, Ok (summary_kab st3, Some (result_kec st3)))
        end
      end
    end.
Proof.
  unfold process_files, files_of.
  destruct (bool_decide (glob w _ = [])); [done|].
  munfold. cbn [result_kab result_kec summary_kab stdout state0].
  change (mkState DataFrame_new DataFrame_new None []) with state0.
  destruct (for_each _ _ state0) as [st1 [[]|e]]; [|done].
  destruct (process_kab k p st1) as [st2 [[]|e]]; [|done].
  destruct (process_kec k p st2) as [st3 [[]|e]]; done.
Qed.

(** A call that returns a table went through the three stages. *)
Lemma process_files_returns w d k p out skab rkec :
  call (process_files w d k p) = (out, Ok (skab, Some rkec)) ->
  exists st1 st2 st3,
    files_of w d p <> [] /\
    for_each (files_of w d p) (loop_body w k p) state0 = (st1, Ok tt) /\
    process_kab k p st1 = (st2, Ok tt) /\
    process_kec k p st2 = (st3, Ok tt) /\
    out = stdout st3 /\ skab = summary_kab st3 /\ rkec = result_kec st3.
Proof.
  unfold call. rewrite process_files_spec.
  destruct (bool_decide (files_of w d p = [])) eqn:Hf; [done|].
  apply bool_decide_eq_false in Hf.
  destruct (for_each _ _ state0) as [st1 [[]|e]] eqn:H1; [|done].
  destruct (process_kab k p st1) as [st2 [[]|e]] eqn:H2; [|done].
  destruct (process_kec k p st2) as [st3 [[]|e]] eqn:H3; [|done].
  intros [= <- <- <-]. by exists st1, st2, st3.
Qed.

(** A non-empty table that [process_kec] leaves in [result_kec] is the
    re-grouped one with its [SUM] column. *)
Lemma process_kec_nonempty k p st st' :
  process_kec k p st = (st', Ok tt) ->
  empty (result_kec st') = false ->
  exists g,
    groupby_sum "kec" columns_to_sum (result_kec st) = Ok g /\
    add_SUM g = Ok (result_kec st').
Proof.
  rewrite process_kec_spec.
  destruct (empty (result_kec st)) eqn:He.
  { intros [= <-]. cbn [result_kec]. rewrite He. done. }
  destruct (groupby_sum "kec" columns_to_sum (result_kec st)) as [g|e]; [|done].
  destruct (add_SUM g) as [df|e] eqn:Hsum; [|done].
  intros [= <-] _. by exists g.
Qed.

Lemma table_nonempty w d k p out skab rkec :
  call (process_files w d k p) = (out, Ok (skab, Some rkec)) ->
  empty rkec = false ->
  exists acc g,
    groupby_sum "kec" columns_to_sum acc = Ok g /\ add_SUM g = Ok rkec.
Proof.
  intros (st1 & st2 & st3 & _ & _ & _ & Hkec & _ & _ & ->)%process_files_returns Hne.
  destruct (process_kec_nonempty _ _ _ _ Hkec Hne) as (g & Hg & Hsum).
  by exists (result_kec st2), g.
Qed.

Lemma SUM_not_grouped g acc :
  groupby_sum "kec" columns_to_sum acc = Ok g -> "SUM" ∉ columns g.
Proof.
  intros ->%groupby_sum_columns. apply not_in_list. reflexivity.
Qed.

Lemma zip_with_SUM_cells (c : string) (rs : list row) (sums : list value) :
  length rs = length sums -> c <> "SUM" ->
  cell c <$> ((fun p : row * value => <["SUM" := p.2]> p.1) <$> zip rs sums)
  = cell c <$> rs.
Proof.
  intros Hlen Hc. revert sums Hlen.
  induction rs as [|r rs IH]; intros [|s sums] Hlen; try done.
  cbn. rewrite cell_insert_ne by done. f_equal. apply IH. by injection Hlen.
Qed.

(** ** Claims about the shape of the sub-district table *)

(** C9. A non-empty sub-district table returned by [process_files] has
    exactly the columns kec, the six measure columns and SUM, in this order:
    the per-file tag column 'file' and the identifier columns id_prov,
    id_kab and id_kec of the input are not among them. *)
Theorem C9_table_columns w d k p out skab rkec :
  call (process_files w d k p) = (out, Ok (skab, Some rkec)) ->
  empty rkec = false ->
  columns rkec = "kec" :: columns_to_sum ++ ["SUM"] /\
  forall c, c ∈ ["file"; "id_prov"; "id_kab"; "id_kec"] -> c ∉ columns rkec.
Proof.
  intros Hcall Hne.
  destruct (table_nonempty _ _ _ _ _ _ _ Hcall Hne) as (acc & g & Hg & Hsum).
  destruct (add_SUM_Ok _ _ (SUM_not_grouped _ _ Hg) Hsum) as [Hcols _].
  rewrite (groupby_sum_columns _ _ _ _ Hg) in Hcols.
  assert (columns rkec = "kec" :: columns_to_sum ++ ["SUM"]) as -> by done.
  split; [done|]. intros c Hc.
  repeat (apply elem_of_cons in Hc as [->|Hc];
          [apply not_in_list; reflexivity|]).
  by apply elem_of_nil in Hc.
Qed.

Lemma C9_table_columns_witness :
  call (process_files world_AB "data" 7205 "4_54")
    = (run_AB.1, Ok (summary_AB, Some table_AB)) /\
  empty table_AB = false /\
  columns table_AB = "kec" :: columns_to_sum ++ ["SUM"].
Proof.
  assert (call (process_files world_AB "data" 7205 "4_54")
          = (run_AB.1, Ok (summary_AB, Some table_AB))) as Hcall
    by (vm_compute; reflexivity).
  assert (empty table_AB = false) as Hne by (vm_compute; reflexivity).
  split; [exact Hcall|]. split; [exact Hne|].
  exact (proj1 (C9_table_columns _ _ _ _ _ _ _ Hcall Hne)).
Defined.

(** C10. The rows of a non-empty sub-district table are in strictly
    ascending order of their kec (every row comes before all rows with a
    larger key), whatever the order of the files and of their rows. *)
Theorem C10_table_sorted w d k p out skab rkec :
  call (process_files w d k p) = (out, Ok (skab, Some rkec)) ->
  empty rkec = false ->
  StronglySorted value_lt (cell "kec" <$> rows rkec).
Proof.
  intros Hcall Hne.
  destruct (table_nonempty _ _ _ _ _ _ _ Hcall Hne) as (acc & g & Hg & Hsum).
  destruct (add_SUM_Ok _ _ (SUM_not_grouped _ _ Hg) Hsum)
    as (_ & ds & sums & Hsums & ->).
  rewrite zip_with_SUM_cells; [|by eapply Forall2_length|done].
  rewrite (groupby_sum_keys _ _ _ _ Hg). apply group_keys_sorted.
Qed.

Lemma C10_table_sorted_witness :
  call (process_files world_AB "data" 7205 "4_54")
    = (run_AB.1, Ok (summary_AB, Some table_AB)) /\
  empty table_AB = false /\
  StronglySorted value_lt (cell "kec" <$> rows table_AB).
Proof.
  assert (call (process_files world_AB "data" 7205 "4_54")
          = (run_AB.1, Ok (summary_AB, Some table_AB))) as Hcall
    by (vm_compute; reflexivity).
  assert (empty table_AB = false) as Hne by (vm_compute; reflexivity).
  split; [exact Hcall|]. split; [exact Hne|].
  exact (C10_table_sorted _ _ _ _ _ _ _ Hcall Hne).
Defined.

Example table_AB_keys : cell "kec" <$> rows table_AB = [VInt 10; VInt 20].
Proof. vm_compute. reflexivity. Qed.

(** ** The loop over the files (lines 59-77) *)

Lemma loop_body_spec w k p file st :
  loop_body w k p file st = (after_file w k p file st, Ok tt).
Proof.
  unfold loop_body, try_except, after_file. munfold.
  rewrite try_body_spec. cbn [result_kab result_kec summary_kab stdout].
  destruct (district_data_kab w k p file) as [dk|e]; [|done].
  destruct (summed_kec w k p file) as [sk|e]; done.
Qed.

Lemma for_each_loop w k p files st :
  for_each files (loop_body w k p) st
  = (foldl (fun st file => after_file w k p file st) st files, Ok tt).
Proof.
  revert st. induction files as [|file files IH]; intros st; [done|].
  cbn [for_each foldl]. unfold mbind, M_bind. rewrite loop_body_spec. apply IH.
Qed.

Lemma kab_pieces_cons w k p file files :
  kab_pieces w k p (file :: files)
  = match district_data_kab w k p file with
    | Ok d => d :: kab_pieces w k p files
    | Raise _ => kab_pieces w k p files
    end.
Proof.
  unfold kab_pieces. cbn. by destruct (district_data_kab w k p file).
Qed.

Lemma kec_pieces_cons w k p file files :
  kec_pieces w k p (file :: files)
  = match district_data_kab w k p file, summed_kec w k p file with
    | Ok _, Ok s => s :: kec_pieces w k p files
    | _, _ => kec_pieces w k p files
    end.
Proof.
  unfold kec_pieces, file_error. cbn.
  destruct (district_data_kab w k p file);
    [destruct (summed_kec w k p file)|]; done.
Qed.

Lemma loop_result_kab w k p files st :
  result_kab (foldl (fun st file => after_file w k p file st) st files)
  = foldl concat (result_kab st) (kab_pieces w k p files).
Proof.
  revert st. induction files as [|file files IH]; intros st; [done|].
  cbn [foldl]. rewrite IH, kab_pieces_cons. unfold after_file.
  destruct (district_data_kab w k p file) as [dk|e];
    [destruct (summed_kec w k p file)|]; done.
Qed.

Lemma loop_result_kec w k p files st :
  result_kec (foldl (fun st file => after_file w k p file st) st files)
  = foldl concat (result_kec st) (kec_pieces w k p files).
Proof.
  revert st. induction files as [|file files IH]; intros st; [done|].
  cbn [foldl]. rewrite IH, kec_pieces_cons. unfold after_file.
  destruct (district_data_kab w k p file) as [dk|e];
    [destruct (summed_kec w k p file)|]; done.
Qed.

Lemma loop_summary_kab w k p files st :
  summary_kab (foldl (fun st file => after_file w k p file st) st files)
  = summary_kab st.
Proof.
  revert st. induction files as [|file files IH]; intros st; [done|].
  cbn [foldl]. rewrite IH. unfold after_file.
  destruct (district_data_kab w k p file) as [dk|e];
    [destruct (summed_kec w k p file)|]; done.
Qed.

(** ** The district summary (lines 80-98) *)

Lemma process_kab_spec k p st :
  process_kab k p st =
  match district_summary (result_kab st) with
  | Ok s =>
    (mkState (result_kab st) (result_kec st) s
       (stdout st ++ kab_log k p (result_kab st)), Ok tt)
  | Raise e => (st, Raise e)
  end.
Proof.
  unfold process_kab, district_summary, kab_log, sums_frame. munfold.
  destruct (empty (result_kab st)) eqn:Hempty; [done|].
  destruct (getitem_list _ _) as [sel|e]; [|done]. cbn.
  destruct (sum_row sel _) as [s|e]; [|done].
  cbn [for_each]. munfold. cbn [result_kab result_kec summary_kab stdout].
  unfold attach, kab_not_found, getitem, new_col.
  destruct (rows (result_kab st)) as [|r0 rs] eqn:Hrows.
  { unfold empty in Hempty. rewrite Hrows in Hempty.
    by rewrite orb_true_r in Hempty. }
  destruct (decide ("id_prov" ∈ columns (result_kab st)));
    destruct (decide ("id_kab" ∈ columns (result_kab st)));
    cbn; rewrite ?app_nil_r, <- ?app_assoc; done.
Qed.

Lemma filter_none {A : Type} (P : A -> Prop) `{!forall x, Decision (P x)}
    (l : list A) :
  (forall x, x ∈ l -> ~ P x) -> filter P l = [].
Proof.
  induction l as [|x l IH]; intros Hl; [done|].
  rewrite filter_cons, decide_False by (apply Hl; left).
  apply IH. intros y Hy. apply Hl. by right.
Qed.

Lemma zip_graph {A : Type} (f : string -> A) (sel : list string) :
  zip sel (f <$> sel) = (fun c => (c, f c)) <$> sel.
Proof. induction sel as [|c sel IH]; cbn; [done|]. by rewrite IH. Qed.

Lemma select_dtypes_numeric_elem df c :
  c ∈ select_dtypes_numeric df ->
  c ∈ columns df /\ exists d, dtype_of df c = Some d /\ numeric_dtype d = true.
Proof.
  unfold select_dtypes_numeric. intros [Hnum Hc]%list_elem_of_filter.
  split; [done|]. destruct (dtype_of df c) as [d|]; [|done]. by exists d.
Qed.

Lemma row_to_sum_elem acc c :
  c ∈ row_to_sum acc <->
  c ∈ select_dtypes_numeric acc /\ c ∉ ["id_komoditas"; "ID"].
Proof. unfold row_to_sum. rewrite list_elem_of_filter. tauto. Qed.

Lemma sums_frame_Ok acc : exists dt, sums_frame acc = Ok (sums_base acc dt).
Proof.
  unfold sums_frame, getitem_list, sums_base, sums_row.
  assert (forall c, c ∈ row_to_sum acc -> c ∈ columns acc) as Hsub.
  { intros c [Hc _]%row_to_sum_elem.
    by apply select_dtypes_numeric_elem in Hc as [? _]. }
  assert (filter (fun c => c ∉ columns acc) (row_to_sum acc) = []) as ->.
  { apply filter_none. intros c Hc Hn. by apply Hn, Hsub. }
  cbn. unfold sum_row. cbn [rows].
  rewrite (mapM_Ok _ (column_total acc)).
  - cbn. rewrite zip_graph. by eexists.
  - intros c Hc. unfold dtype_of at 1. cbn [cols].
    rewrite assoc_graph by done. cbn [default].
    apply row_to_sum_elem in Hc as [Hc _].
    apply select_dtypes_numeric_elem in Hc as (_ & d & -> & Hd).
    by destruct d.
Qed.

Lemma cell_graph (f : string -> value) (sel : list string) (c : string) :
  c ∈ sel -> cell c (list_to_map ((fun c => (c, f c)) <$> sel)) = f c.
Proof.
  intros Hc. unfold cell.
  induction sel as [|c' sel IH]; [by apply elem_of_nil in Hc|].
  cbn. rewrite lookup_insert. destruct (decide (c' = c)) as [->|Hne]; [done|].
  apply IH. by apply elem_of_cons in Hc as [->|].
Qed.

Lemma lookup_graph_None (f : string -> value) (sel : list string) (c : string) :
  c ∉ sel ->
  (list_to_map ((fun c => (c, f c)) <$> sel) : row) !! c = None.
Proof.
  intros Hc. apply not_elem_of_list_to_map_1. by rewrite fst_graph.
Qed.

(** ** The value a call returns *)

Lemma process_kec_result k p st :
  process_kec k p st =
  let out := stdout st ++
    (if empty (result_kec st) then
       ["No data found for id_kab " +:+ str_int k +:+ " in the "
        +:+ p +:+ "_komoditas_kec sheets."]
     else kec_not_found) in
  match kec_table (result_kec st) with
  | Ok t => (mkState (result_kab st) t (summary_kab st) out, Ok tt)
  | Raise e =>
    match groupby_sum "kec" columns_to_sum (result_kec st) with
    | Ok g => (mkState (result_kab st) g (summary_kab st) out, Raise e)
    | Raise _ => (st, Raise e)
    end
  end.
Proof.
  rewrite process_kec_spec. unfold kec_table.
  destruct (empty (result_kec st)); [done|].
  destruct (groupby_sum "kec" columns_to_sum (result_kec st)) as [g|e]; [|done].
  cbn. by destruct (add_SUM g).
Qed.

Lemma process_files_result w d k p :
  files_of w d p <> [] ->
  (call (process_files w d k p)).2 =
  (s ← district_summary (accumulated_kab w k p (files_of w d p));
   t ← kec_table (accumulated_kec w k p (files_of w d p));
   Ok (s, Some t)).
Proof.
  intros Hfiles. unfold call. rewrite process_files_spec.
  rewrite bool_decide_eq_false_2 by done.
  rewrite for_each_loop, process_kab_spec, loop_result_kab.
  change (foldl concat (result_kab state0) ?l) with (foldl concat DataFrame_new l).
  fold (accumulated_kab w k p (files_of w d p)).
  destruct (district_summary _) as [s|e]; [|done].
  rewrite process_kec_result. cbn [result_kec result_kab summary_kab stdout].
  rewrite loop_result_kec.
  change (foldl concat (result_kec state0) ?l) with (foldl concat DataFrame_new l).
  fold (accumulated_kec w k p (files_of w d p)).
  destruct (kec_table _) as [t|e]; [done|].
  by destruct (groupby_sum _ _ _).
Qed.

(** ** Concatenation *)

Lemma rows_concat a b : rows (concat a b) = rows a ++ rows b.
Proof.
  unfold concat. case_bool_decide as Ha.
  - destruct Ha as [_ ->]. done.
  - case_bool_decide as Hb; [|done]. destruct Hb as [_ ->].
    by rewrite app_nil_r.
Qed.

Lemma rows_foldl_concat a l : rows (foldl concat a l) = rows a ++ (l ≫= rows).
Proof.
  revert a. induction l as [|b l IH]; intros a; cbn.
  - by rewrite app_nil_r.
  - rewrite IH, rows_concat. by rewrite <- app_assoc.
Qed.

Lemma columns_concat_l a b c : c ∈ columns a -> c ∈ columns (concat a b).
Proof.
  intros Hc. unfold concat. case_bool_decide as Ha.
  { destruct Ha as [Ha _]. unfold columns in Hc. rewrite Ha in Hc.
    by apply elem_of_nil in Hc. }
  case_bool_decide as Hb; [done|].
  unfold columns. cbn. rewrite fmap_app. apply elem_of_app. left.
  rewrite <- list_fmap_compose. done.
Qed.

Lemma columns_concat_r a b c : c ∈ columns b -> c ∈ columns (concat a b).
Proof.
  intros Hc. unfold concat. case_bool_decide as Ha; [done|].
  case_bool_decide as Hb.
  { destruct Hb as [Hb _]. unfold columns in Hc. rewrite Hb in Hc.
    by apply elem_of_nil in Hc. }
  destruct (decide (c ∈ columns a)) as [Hin|Hnotin].
  { apply (columns_concat_l a b) in Hin. unfold concat in Hin.
    by rewrite !bool_decide_eq_false_2 in Hin. }
  unfold columns. cbn. rewrite fmap_app. apply elem_of_app. right.
  rewrite <- list_fmap_compose.
  unfold columns in Hc. apply list_elem_of_fmap in Hc as ([c' dt] & -> & Hin).
  apply list_elem_of_fmap. exists (c', dt). split; [done|].
  apply list_elem_of_filter. done.
Qed.

Lemma columns_foldl_concat_l a l c :
  c ∈ columns a -> c ∈ columns (foldl concat a l).
Proof.
  revert a. induction l as [|b l IH]; intros a Hc; [done|].
  cbn. by apply IH, columns_concat_l.
Qed.

Lemma columns_foldl_concat a l b c :
  b ∈ l -> c ∈ columns b -> c ∈ columns (foldl concat a l).
Proof.
  revert a. induction l as [|b' l IH]; intros a Hb Hc.
  { by apply elem_of_nil in Hb. }
  cbn. apply elem_of_cons in Hb as [->|Hb].
  - by apply columns_foldl_concat_l, columns_concat_r.
  - by eapply IH.
Qed.

Lemma dtype_of_elem df c : c ∈ columns df -> exists d, dtype_of df c = Some d.
Proof.
  intros Hc. unfold dtype_of. destruct (assoc c (cols df)) as [d|] eqn:Ha.
  - by exists d.
  - by apply assoc_None_elem in Ha.
Qed.

(** ** Group sums of numeric data *)

Lemma kec_not_measure c : c ∈ columns_to_sum -> "kec" <> c.
Proof.
  intros Hc <-. revert Hc. apply not_in_list. reflexivity.
Qed.

Lemma cell_grouped_row_key R k : cell "kec" (grouped_row R k) = k.
Proof. unfold grouped_row. rewrite cell_insert. by rewrite decide_True. Qed.

Lemma cell_grouped_row R k c :
  c ∈ columns_to_sum -> cell c (grouped_row R k) = group_total R k c.
Proof.
  intros Hc. unfold grouped_row.
  rewrite cell_insert_ne by by apply kec_not_measure.
  by apply (cell_graph (group_total R k)).
Qed.

Lemma group_row_numeric df k :
  numeric_rows (rows df) ->
  group_row df "kec" columns_to_sum k = Ok (grouped_row (rows df) k).
Proof.
  intros Hnum. unfold group_row.
  rewrite (mapM_Ok _ (group_total (rows df) k)).
  - unfold mbind, result_bind, mret, result_ret. by rewrite zip_graph.
  - intros c Hc. apply Series_sum_numeric, Forall_forall.
    intros v (r & -> & [_ Hr]%list_elem_of_filter)%list_elem_of_fmap.
    by apply Hnum.
Qed.

Lemma groupby_numeric df :
  (forall c, c ∈ "kec" :: columns_to_sum -> c ∈ columns df) ->
  numeric_rows (rows df) ->
  exists g,
    groupby_sum "kec" columns_to_sum df = Ok g /\
    rows g = grouped_rows (rows df).
Proof.
  intros Hcols Hnum. unfold groupby_sum.
  destruct (dtype_of_elem df "kec") as [dby ->]; [apply Hcols; left|].
  rewrite filter_none by (intros c Hc Hn; apply Hn, Hcols; by right).
  rewrite (mapM_Ok _ (grouped_row (rows df)))
    by (intros; by apply group_row_numeric).
  unfold mbind, result_bind, mret, result_ret. by eexists.
Qed.


Lemma cell_tagged_key file r : cell "kec" (tagged file r) = cell "kec" r.
Proof. unfold tagged. by rewrite cell_insert_ne. Qed.

Lemma cell_tagged_measure file r c :
  c ∈ columns_to_sum -> cell c (tagged file r) = cell c r.
Proof.
  intros Hc. unfold tagged. rewrite cell_insert_ne; [done|].
  intros <-. revert Hc. apply not_in_list. reflexivity.
Qed.


Lemma keys_one_file file R k :
  k ∈ cell "kec" <$> (tagged file <$> grouped_rows R)
  <-> k ∈ cell "kec" <$> R /\ k <> VNaN.
Proof.
  unfold grouped_rows. rewrite <- !list_fmap_compose.
  rewrite <- group_keys_elem.
  assert (cell "kec" ∘ tagged file ∘ grouped_row R <$> group_keys (cell "kec" <$> R)
          = group_keys (cell "kec" <$> R)) as ->; [|done].
  rewrite <- (list_fmap_id (group_keys _)) at 2. apply list_fmap_ext.
  intros _ k' _. unfold compose. by rewrite cell_tagged_key, cell_grouped_row_key.
Qed.

(** ** Across the files *)

Lemma kec_pieces_rows w k p files :
  kec_pieces w k p files ≫= rows = files ≫= piece_rows w k p.
Proof.
  induction files as [|file files IH]; [done|].
  rewrite kec_pieces_cons, (bind_cons _ file). unfold piece_rows, file_error.
  destruct (district_data_kab w k p file) as [dk|e];
    [destruct (summed_kec w k p file) as [s|e]|]; cbn; by rewrite IH.
Qed.

Lemma kab_pieces_rows w k p files :
  kab_pieces w k p files ≫= rows = files ≫= kab_rows w k p.
Proof.
  induction files as [|file files IH]; [done|].
  rewrite kab_pieces_cons, (bind_cons _ file). unfold kab_rows.
  destruct (district_data_kab w k p file) as [dk|e]; cbn; by rewrite IH.
Qed.

Lemma rows_accumulated_kec w k p files :
  rows (accumulated_kec w k p files) = files ≫= piece_rows w k p.
Proof.
  unfold accumulated_kec. by rewrite rows_foldl_concat, kec_pieces_rows.
Qed.

Lemma rows_accumulated_kab w k p files :
  rows (accumulated_kab w k p files) = files ≫= kab_rows w k p.
Proof.
  unfold accumulated_kab. by rewrite rows_foldl_concat, kab_pieces_rows.
Qed.

Lemma summed_kec_Ok w k p file s :
  summed_kec w k p file = Ok s ->
  exists d g,
    district_data_kec w k p file = Ok d /\
    groupby_sum "kec" columns_to_sum d = Ok g /\
    s = setitem_scalar g "file" (VStr (basename file)).
Proof.
  unfold summed_kec. destruct (district_data_kec w k p file) as [d|e]; [|done].
  cbn. destruct (groupby_sum "kec" columns_to_sum d) as [g|e] eqn:Hg; [|done].
  intros [= <-]. by exists d, g.
Qed.

Lemma summed_kec_columns w k p file s :
  summed_kec w k p file = Ok s ->
  columns s = ("kec" :: columns_to_sum) ++ ["file"].
Proof.
  intros (d & g & _ & Hg & ->)%summed_kec_Ok.
  apply groupby_sum_columns in Hg. unfold columns, setitem_scalar. cbn [cols].
  rewrite set_col_new; [by f_equal|].
  fold (columns g). rewrite Hg. apply not_in_list. reflexivity.
Qed.

Lemma piece_rows_numeric w k p file :
  numeric_measures w k p file ->
  piece_rows w k p file = tagged file <$> grouped_rows (kec_rows w k p file).
Proof.
  intros Hnum. unfold piece_rows, kec_rows.
  destruct (file_error w k p file) eqn:Herr; [done|].
  destruct (summed_kec w k p file) as [s|e] eqn:Hs.
  - apply summed_kec_Ok in Hs as (d & g & Hd & Hg & ->). rewrite Hd.
    destruct (groupby_sum_Ok _ _ _ _ Hg) as (dby & rs & Hkec & Hsel & _ & _).
    destruct (groupby_numeric d) as (g' & Hg' & Hrows).
    + intros c [->|Hc]%elem_of_cons; [|by apply Hsel].
      by eapply assoc_Some_elem.
    + intros r c Hr Hc. by eapply Hnum.
    + rewrite Hg in Hg'. injection Hg' as <-.
      unfold setitem_scalar. cbn [rows]. by rewrite Hrows.
  - unfold file_error in Herr. rewrite Hs in Herr.
    by destruct (district_data_kab w k p file).
Qed.


Lemma cross_file_keys w k p files kv :
  (forall file, file ∈ files -> numeric_measures w k p file) ->
  kv ∈ cell "kec" <$> (files ≫= piece_rows w k p)
  <-> kv ∈ cell "kec" <$> (files ≫= kec_rows w k p) /\ kv <> VNaN.
Proof.
  intros Hnum. induction files as [|file files IH].
  { cbn. split; [by intros ?%elem_of_nil|by intros [?%elem_of_nil _]]. }
  rewrite !(bind_cons _ file), !fmap_app, !elem_of_app.
  rewrite IH by (intros; apply Hnum; by right).
  rewrite piece_rows_numeric by (apply Hnum; left).
  rewrite keys_one_file. tauto.
Qed.

Lemma piece_rows_ints w k p files r c :
  (forall file, file ∈ files -> numeric_measures w k p file) ->
  r ∈ files ≫= piece_rows w k p -> c ∈ columns_to_sum -> is_int (cell c r).
Proof.
  intros Hnum (file & Hr & Hfile)%list_elem_of_bind Hc.
  rewrite piece_rows_numeric in Hr by by apply Hnum.
  apply list_elem_of_fmap in Hr as (r' & -> & Hr').
  apply list_elem_of_fmap in Hr' as (kv & -> & _).
  rewrite cell_tagged_measure, cell_grouped_row by done. by eexists.
Qed.

Lemma accumulated_kec_columns w k p files c :
  rows (accumulated_kec w k p files) <> [] ->
  c ∈ ("kec" :: columns_to_sum) ++ ["file"] ->
  c ∈ columns (accumulated_kec w k p files).
Proof.
  intros Hrows Hc. unfold accumulated_kec in *.
  rewrite rows_foldl_concat in Hrows. cbn [rows DataFrame_new app] in Hrows.
  destruct (kec_pieces w k p files) as [|s pieces] eqn:Hp; [done|].
  assert (s ∈ kec_pieces w k p files) as Hs by (rewrite Hp; left).
  rewrite <- Hp. eapply columns_foldl_concat; [exact Hs|].
  unfold kec_pieces in Hs. apply list_elem_of_omap in Hs as (file & _ & Hs).
  destruct (file_error w k p file); [done|].
  destruct (summed_kec w k p file) as [s'|e] eqn:Hs'; [|done].
  injection Hs as ->. by rewrite (summed_kec_columns _ _ _ _ _ Hs').
Qed.

(** ** The sub-district table of numeric data *)

Lemma zip_fmap_same {A B C : Type} (f : A -> B) (h : A * B -> C) (l : list A) :
  h <$> zip l (f <$> l) = (fun x => h (x, f x)) <$> l.
Proof. induction l as [|x l IH]; cbn; [done|]. by rewrite IH. Qed.

Lemma add_SUM_numeric g :
  columns g = "kec" :: columns_to_sum ->
  (forall r c, r ∈ rows g -> c ∈ columns_to_sum -> is_int (cell c r)) ->
  exists t,
    add_SUM g = Ok t /\ rows t = with_SUM <$> rows g /\
    columns t = columns g ++ ["SUM"].
Proof.
  intros Hcols Hint. unfold add_SUM, getitem_list.
  rewrite filter_none
    by (intros c Hc Hn; apply Hn; rewrite Hcols; by right).
  unfold mbind, result_bind, mret, result_ret. unfold sum_axis1. cbn [rows].
  rewrite (mapM_Ok _ (fun r => VInt (nansum ((fun c => cell c r) <$> columns_to_sum)))).
  - eexists. split; [done|]. unfold setitem_series, columns. cbn [rows cols].
    split; [by rewrite zip_fmap_same|].
    apply set_col_new. fold (columns g). rewrite Hcols.
    apply not_in_list. reflexivity.
  - intros r Hr. apply row_sum_numeric, Forall_forall.
    intros v (c & -> & Hc)%list_elem_of_fmap. by apply Hint.
Qed.

Lemma is_int_numeric v : is_int v -> is_numeric v.
Proof. by intros [z ->]. Qed.

Lemma empty_false df : empty df = false <-> cols df <> [] /\ rows df <> [].
Proof.
  unfold empty. rewrite orb_false_iff, !bool_decide_eq_false. done.
Qed.

Lemma accumulated_kec_empty w k p files :
  empty (accumulated_kec w k p files) = true ->
  rows (accumulated_kec w k p files) = [].
Proof.
  intros Hempty.
  destruct (rows (accumulated_kec w k p files)) as [|r rs] eqn:Hrows; [done|].
  assert ("kec" ∈ columns (accumulated_kec w k p files)) as Hkec.
  { apply accumulated_kec_columns; [by rewrite Hrows|]. left. }
  assert (empty (accumulated_kec w k p files) = false) as Hne; [|congruence].
  apply empty_false. split; [|by rewrite Hrows].
  intros Hnil. unfold columns in Hkec. rewrite Hnil in Hkec.
  by apply elem_of_nil in Hkec.
Qed.

Lemma kec_table_numeric w k p files :
  Forall (numeric_measures w k p) files ->
  exists t,
    kec_table (accumulated_kec w k p files) = Ok t /\
    rows t = with_SUM <$> grouped_rows (files ≫= piece_rows w k p).
Proof.
  intros Hnum. rewrite Forall_forall in Hnum. unfold kec_table.
  destruct (empty (accumulated_kec w k p files)) eqn:Hempty.
  { eexists. split; [done|].
    rewrite <- rows_accumulated_kec, (accumulated_kec_empty _ _ _ _ Hempty).
    reflexivity. }
  apply empty_false in Hempty as [_ Hrows].
  destruct (groupby_numeric (accumulated_kec w k p files)) as (g & Hg & Hgrows).
  { intros c Hc. apply accumulated_kec_columns; [done|].
    apply elem_of_app. by left. }
  { intros r c Hr Hc. rewrite rows_accumulated_kec in Hr.
    by eapply is_int_numeric, piece_rows_ints. }
  rewrite Hg. unfold mbind, result_bind.
  destruct (add_SUM_numeric g) as (t & Ht & Htrows & _).
  { by eapply groupby_sum_columns. }
  { intros r c Hr Hc. rewrite Hgrows in Hr.
    apply list_elem_of_fmap in Hr as (kv & -> & _).
    rewrite cell_grouped_row by done. by eexists. }
  exists t. split; [done|].
  by rewrite Htrows, Hgrows, rows_accumulated_kec.
Qed.

Lemma district_summary_Ok acc : exists s, district_summary acc = Ok s.
Proof.
  unfold district_summary. destruct (empty acc); [by eexists|].
  destruct (sums_frame_Ok acc) as [d ->]. by eexists.
Qed.




(** ** C1 *)



(** The example of the specification: 10 + 5 in one file and 3 in the
    other give 18 for sub-district 10. *)
Example table_AB_n_rtup :
  (fun r => (cell "kec" r, cell "n_rtup" r, cell "SUM" r)) <$> rows table_AB
  = [(VInt 10, VInt 18, VInt 32); (VInt 20, VInt 4, VInt 6)].
Proof. vm_compute. reflexivity. Qed.

(** A call that returns a table: the table and the summary as functions of
    what the loop accumulated. *)
Lemma process_files_returns_table w d k p out skab rkec :
  call (process_files w d k p) = (out, Ok (skab, Some rkec)) ->
  files_of w d p <> [] /\
  district_summary (accumulated_kab w k p (files_of w d p)) = Ok skab /\
  kec_table (accumulated_kec w k p (files_of w d p)) = Ok rkec.
Proof.
  intros Hcall.
  destruct (process_files_returns _ _ _ _ _ _ _ Hcall) as (_ & _ & _ & Hf & _).
  split; [done|]. pose proof (process_files_result w d k p Hf) as Hres.
  rewrite Hcall in Hres. cbn [snd] in Hres.
  destruct (district_summary _) as [s|e]; [|done].
  destruct (kec_table _) as [t|e]; [|done].
  cbn in Hres. by injection Hres as -> ->.
Qed.



(** ** C3 *)



(** ** C6 *)

Lemma piece_rows_no_match w k p file :
  kec_matching_rows w k p file = [] -> piece_rows w k p file = [].
Proof.
  unfold kec_matching_rows, piece_rows. intros Hd.
  destruct (file_error w k p file); [done|].
  destruct (summed_kec w k p file) as [s|e] eqn:Hs; [|done].
  apply summed_kec_Ok in Hs as (d & g & Hd' & Hg & ->).
  rewrite Hd' in Hd.
  apply groupby_sum_Ok in Hg as (dby & rs & _ & _ & Hrs & ->).
  rewrite Hd in Hrs. cbn in Hrs. injection Hrs as <-. done.
Qed.

Lemma no_match_rows w k p files :
  Forall (no_match w k p) files ->
  files ≫= kab_rows w k p = [] /\ files ≫= piece_rows w k p = [].
Proof.
  induction 1 as [|file files [Hkab Hkec] _ [IH1 IH2]]; [done|].
  rewrite !(bind_cons _ file), IH1, IH2, Hkab, piece_rows_no_match; done.
Qed.

(** C6. Absence of data never raises.  Without candidate files the call
    prints that none was found and returns (None, None).  With candidate
    files of which no sheet has a row with the requested district code,
    the call returns None for the district summary together with an empty
    sub-district table. *)
Theorem C6_no_data w d k p :
  (files_of w d p = [] ->
   call (process_files w d k p)
   = (["No Excel files found with prefix '" +:+ p +:+ "' in directory: " +:+ d],
      Ok (None, None))) /\
  (files_of w d p <> [] -> Forall (no_match w k p) (files_of w d p) ->
   exists t,
     (call (process_files w d k p)).2 = Ok (None, Some t) /\ empty t = true).
Proof.
  split.
  - intros Hf. unfold call. rewrite process_files_spec.
    by rewrite bool_decide_eq_true_2.
  - intros Hf [Hkab Hkec]%no_match_rows.
    rewrite process_files_result by done.
    rewrite <- rows_accumulated_kab in Hkab.
    rewrite <- rows_accumulated_kec in Hkec.
    unfold district_summary, kec_table, empty. rewrite Hkab, Hkec.
    rewrite !orb_true_r. cbn.
    eexists. split; [done|]. by rewrite Hkec, orb_true_r.
Qed.

Lemma C6_no_data_witness :
  (files_of world_none "data" "4_54" = [] /\
   call (process_files world_none "data" 7205 "4_54")
   = (["No Excel files found with prefix '4_54' in directory: data"],
      Ok (None, None))) /\
  (files_of world_AB "data" "4_54" <> [] /\
   Forall (no_match world_AB 9999 "4_54") (files_of world_AB "data" "4_54") /\
   exists t,
     (call (process_files world_AB "data" 9999 "4_54")).2 = Ok (None, Some t)
     /\ empty t = true).
Proof.
  assert (files_of world_none "data" "4_54" = []) as Hnone by reflexivity.
  assert (files_of world_AB "data" "4_54" <> []) as Hfiles
    by (vm_compute; discriminate).
  assert (Forall (no_match world_AB 9999 "4_54")
            (files_of world_AB "data" "4_54")) as Hno
    by (apply (bool_decide_unpack _); vm_compute; exact I).
  split.
  - split; [exact Hnone|].
    exact (proj1 (C6_no_data world_none "data" 7205 "4_54") Hnone).
  - split; [exact Hfiles|]. split; [exact Hno|].
    exact (proj2 (C6_no_data world_AB "data" 9999 "4_54") Hfiles Hno).
Defined.

(** ** C5 *)

(** C5, as the code has it.  A file whose processing raises leaves
    [result_kec] as it was.  It leaves [result_kab] as it was when the
    exception comes from reading or filtering its district sheet; when the
    exception comes later, from its sub-district sheet, the matching
    district rows of the file have already been appended to [result_kab]
    and stay there. *)
Theorem C5_failed_file w k p file e st :
  file_error w k p file = Some e ->
  result_kec (loop_body w k p file st).1 = result_kec st /\
  (district_data_kab w k p file = Raise e ->
   result_kab (loop_body w k p file st).1 = result_kab st) /\
  (forall dk, district_data_kab w k p file = Ok dk ->
   summed_kec w k p file = Raise e /\
   result_kab (loop_body w k p file st).1 = concat (result_kab st) dk).
Proof.
  intros Herr. rewrite loop_body_spec. cbn [fst]. unfold after_file.
  unfold file_error in Herr.
  destruct (district_data_kab w k p file) as [dk|e1].
  - destruct (summed_kec w k p file) as [sk|e2]; [done|].
    injection Herr as ->. split; [done|]. split; [done|].
    by intros dk' [= <-].
  - injection Herr as ->. done.
Qed.

Lemma C5_failed_file_witness :
  file_error world_B_no_kec 7205 "4_54" "data/b_4_54.xlsx"
    = Some missing_kec_sheet /\
  result_kec (loop_body world_B_no_kec 7205 "4_54" "data/b_4_54.xlsx" state0).1
    = result_kec state0.
Proof.
  assert (file_error world_B_no_kec 7205 "4_54" "data/b_4_54.xlsx"
          = Some missing_kec_sheet) as Herr by (vm_compute; reflexivity).
  split; [exact Herr|].
  exact (proj1 (C5_failed_file world_B_no_kec 7205 "4_54" "data/b_4_54.xlsx"
                  missing_kec_sheet state0 Herr)).
Defined.

(** The statement of the specification fails here: [b_4_54.xlsx] has no sub-district
    sheet, its processing raises, and yet its matching district row is in
    [result_kab] afterwards. *)
Lemma C5_counterexample :
  file_error world_B_no_kec 7205 "4_54" "data/b_4_54.xlsx"
    = Some missing_kec_sheet /\
  rows (result_kab state0) = [] /\
  rows (result_kab
          (loop_body world_B_no_kec 7205 "4_54" "data/b_4_54.xlsx" state0).1)
  = [kab_row 7205 "[7205] BANGGAI" "[72] SULAWESI TENGAH" 4 7] /\
  result_kab (loop_body world_B_no_kec 7205 "4_54" "data/b_4_54.xlsx" state0).1
  <> result_kab state0.
Proof.
  split; [vm_compute; reflexivity|]. split; [reflexivity|].
  split; [vm_compute; reflexivity|].
  intros Heq. apply (f_equal (fun df => length (rows df))) in Heq.
  vm_compute in Heq. discriminate.
Qed.

(** ** C4 *)












(** ** The shape of the district summary *)




Lemma accumulated_kab_columns w k p files :
  rows (accumulated_kab w k p files) <> [] ->
  "kab" ∈ columns (accumulated_kab w k p files).
Proof.
  intros Hrows. unfold accumulated_kab in *.
  rewrite rows_foldl_concat in Hrows. cbn [rows DataFrame_new app] in Hrows.
  destruct (kab_pieces w k p files) as [|s pieces] eqn:Hp; [done|].
  assert (s ∈ kab_pieces w k p files) as Hs by (rewrite Hp; left).
  rewrite <- Hp. eapply columns_foldl_concat; [exact Hs|].
  unfold kab_pieces in Hs. apply list_elem_of_omap in Hs as (file & _ & Hs).
  unfold district_data_kab in Hs.
  destruct (read_excel w file _) as [df|e]; [|done]. cbn in Hs.
  unfold getitem in Hs. destruct (decide ("kab" ∈ columns df)); [|done].
  cbn in Hs. by injection Hs as <-.
Qed.





Lemma process_kab_stdout k p st st' :
  process_kab k p st = (st', Ok tt) ->
  stdout st' = stdout st ++ kab_log k p (result_kab st).
Proof.
  rewrite process_kab_spec. destruct (district_summary _); [|done].
  by intros [= <-].
Qed.



(** ** C2 *)




(** ** C7 *)



Example summary_AB_cells :
  (fun r => (cell "prov" r, cell "kab" r, cell "n_rtup" r)) <$> rows the_summary_AB
  = [(VStr "[72] SULAWESI TENGAH", VStr "[7205] BANGGAI", VInt 17)].
Proof. vm_compute. reflexivity. Qed.

(** ** C8 *)

(** C8 (what the code does at an input that has the identifier columns).
    The sub-district sheet has id_prov, id_kab and id_kec, and still the
    call prints that each of the three was not found; the table has no
    prov and no kab column and its kec column holds the codes of the
    group-by, not texts. *)
Theorem C8_identifier_columns_not_attached :
  (forall c, c ∈ ["id_prov"; "id_kab"; "id_kec"] -> c ∈ columns sheet_kec_ids) /\
  exists out s t,
    call (process_files world_ids "data" 7205 "4_54") = (out, Ok (s, Some t)) /\
    (forall line, line ∈ kec_not_found -> line ∈ out) /\
    columns t = "kec" :: columns_to_sum ++ ["SUM"] /\
    ("prov" ∉ columns t) /\ ("kab" ∉ columns t) /\
    cell "kec" <$> rows t = [VInt 10].
Proof.
  split.
  { apply Forall_forall, (bool_decide_unpack _). vm_compute. exact I. }
  eexists _, _, _. split; [vm_compute; reflexivity|].
  split; [apply Forall_forall, (bool_decide_unpack _); vm_compute; exact I|].
  split; [vm_compute; reflexivity|].
  split; [apply not_in_list; vm_compute; reflexivity|].
  split; [apply not_in_list; vm_compute; reflexivity|].
  vm_compute. reflexivity.
Qed.

(** * Further properties *)

(** ** The order of the files *)





Section SameWorkbooks.

Variables w w' : World.
Hypothesis Hread :
  forall file sheet, read_excel w file sheet = read_excel w' file sheet.








End SameWorkbooks.



(** ** The exceptions that leave the call *)

Lemma mapM_Raise_inv {A B : Type} (f : A -> result B) (l : list A) e :
  mapM f l = Raise e -> exists x, x ∈ l /\ f x = Raise e.
Proof.
  induction l as [|x l IH]; [done|]. cbn.
  destruct (f x) as [y|e'] eqn:Hx; cbn.
  - destruct (mapM f l) as [k|e'] eqn:Hl; cbn; [done|].
    intros [= ->]. destruct (IH eq_refl) as (x' & Hin & Hx').
    exists x'. split; [by right|done].
  - intros [= ->]. exists x. split; [left|done].
Qed.

Lemma py_sum_Raise l e : py_sum l = Raise e -> exists msg, e = TypeError msg.
Proof.
  destruct l as [|v l]; [done|]. cbn [py_sum].
  assert (forall acc, foldl (fun acc x => acc ≫= fun a => py_add a x) acc l
                      = Raise e ->
                      acc = Raise e \/ exists msg, e = TypeError msg) as Hfold.
  { induction l as [|x l IH]; intros acc; cbn [foldl]; [by left|].
    intros [Hacc|Hmsg]%IH; [|by right].
    destruct acc as [a|e']; [|left; exact Hacc]. right.
    cbn in Hacc. destruct a, x; cbn in Hacc; try done;
      injection Hacc as <-; by eexists. }
  intros [?|?]%Hfold; done.
Qed.

Lemma Series_sum_Raise dt l e :
  Series_sum dt l = Raise e -> exists msg, e = TypeError msg.
Proof. destruct dt; try done. apply py_sum_Raise. Qed.

Lemma row_sum_Raise ds l e :
  row_sum ds l = Raise e -> exists msg, e = TypeError msg.
Proof.
  unfold row_sum. destruct (forallb numeric_dtype ds); [done|].
  apply py_sum_Raise.
Qed.

Lemma group_row_Raise df key sel kv e :
  group_row df key sel kv = Raise e -> exists msg, e = TypeError msg.
Proof.
  unfold group_row. destruct (mapM _ sel) as [sums|e'] eqn:Hs; [done|].
  cbn. intros [= ->]. apply mapM_Raise_inv in Hs as (c & _ & Hc).
  by eapply Series_sum_Raise.
Qed.

(** With its key and its columns in place a group-by can only fail in a
    sum. *)
Lemma groupby_sum_Raise key sel df e :
  key ∈ columns df -> (forall c, c ∈ sel -> c ∈ columns df) ->
  groupby_sum key sel df = Raise e -> exists msg, e = TypeError msg.
Proof.
  intros Hkey Hsel. unfold groupby_sum.
  destruct (dtype_of_elem df key Hkey) as [dby ->].
  rewrite filter_none by (intros c Hc Hn; by apply Hn, Hsel).
  destruct (mapM _ (group_keys _)) as [rs|e'] eqn:Hrs; [done|].
  cbn. intros [= ->]. apply mapM_Raise_inv in Hrs as (kv & _ & Hkv).
  by eapply group_row_Raise.
Qed.

Lemma add_SUM_Raise g e :
  columns g = "kec" :: columns_to_sum ->
  add_SUM g = Raise e -> exists msg, e = TypeError msg.
Proof.
  intros Hcols. unfold add_SUM, getitem_list.
  rewrite filter_none by (intros c Hc Hn; apply Hn; rewrite Hcols; by right).
  unfold mbind, result_bind.
  destruct (sum_axis1 _ columns_to_sum) as [sums|e'] eqn:Hs; [done|].
  intros [= ->]. apply mapM_Raise_inv in Hs as (r & _ & Hr).
  by eapply row_sum_Raise.
Qed.

Lemma kec_table_Raise w k p files e :
  kec_table (accumulated_kec w k p files) = Raise e ->
  exists msg, e = TypeError msg.
Proof.
  unfold kec_table.
  destruct (empty (accumulated_kec w k p files)) eqn:Hempty; [done|].
  apply empty_false in Hempty as [_ Hrows].
  destruct (groupby_sum "kec" columns_to_sum _) as [g|e'] eqn:Hg.
  - cbn. apply add_SUM_Raise. by eapply groupby_sum_columns.
  - cbn. intros [= ->]. eapply groupby_sum_Raise; [| |exact Hg].
    + apply accumulated_kec_columns; [done|]. left.
    + intros c Hc. apply accumulated_kec_columns; [done|].
      apply elem_of_app. left. by right.
Qed.

(** X2. The only exception that can leave [process_files] is a
    [TypeError]: reading, filtering and grouping a file are inside the
    [try], the district part cannot raise, and what is left is the sums of
    lines 105 and 116, which raise when they meet a text among numbers. *)
Theorem only_TypeError_escapes w d k p e :
  (call (process_files w d k p)).2 = Raise e -> exists msg, e = TypeError msg.
Proof.
  destruct (decide (files_of w d p = [])) as [Hnil|Hf].
  { unfold call. rewrite process_files_spec.
    by rewrite bool_decide_eq_true_2. }
  rewrite process_files_result by done.
  destruct (district_summary_Ok (accumulated_kab w k p (files_of w d p)))
    as [s ->]. cbn.
  destruct (kec_table _) as [t|e'] eqn:Ht; [done|].
  cbn. intros [= ->]. by eapply kec_table_Raise.
Qed.

Lemma only_TypeError_escapes_witness :
  (call (process_files world_text "data" 7205 "4_54")).2 = Raise str_plus_int /\
  exists msg, str_plus_int = TypeError msg.
Proof.
  assert ((call (process_files world_text "data" 7205 "4_54")).2
          = Raise str_plus_int) as Hcall by (vm_compute; reflexivity).
  split; [exact Hcall|].
  exact (only_TypeError_escapes world_text "data" 7205 "4_54" str_plus_int Hcall).
Defined.

(** Neither of the two files of that directory fails inside the loop. *)
Example world_text_files_succeed :
  Forall (succeeds world_text 7205 "4_54") (files_of world_text "data" "4_54").
Proof. apply (bool_decide_unpack _). vm_compute. exact I. Qed.

(** ** Presence of the two results *)

Lemma accumulated_kab_empty w k p files :
  empty (accumulated_kab w k p files) = true <->
  rows (accumulated_kab w k p files) = [].
Proof.
  split.
  - intros Hempty.
    destruct (rows (accumulated_kab w k p files)) as [|r rs] eqn:Hrows; [done|].
    assert ("kab" ∈ columns (accumulated_kab w k p files)) as Hkab
      by (apply accumulated_kab_columns; by rewrite Hrows).
    assert (empty (accumulated_kab w k p files) = false) as Hne; [|congruence].
    apply empty_false. split; [|by rewrite Hrows].
    intros Hnil. unfold columns in Hkab. rewrite Hnil in Hkab.
    by apply elem_of_nil in Hkab.
  - intros Hrows. unfold empty. rewrite Hrows. apply orb_true_r.
Qed.

Lemma summary_None_iff w k p files s :
  district_summary (accumulated_kab w k p files) = Ok s ->
  s = None <-> files ≫= kab_rows w k p = [].
Proof.
  intros Hs. rewrite <- rows_accumulated_kab, <- accumulated_kab_empty.
  unfold district_summary in Hs.
  destruct (empty (accumulated_kab w k p files)).
  - by injection Hs as <-.
  - destruct (sums_frame _); [|done]. by injection Hs as <-.
Qed.

(** X3. A call that returns gives [None] for the district summary exactly
    when no district row of any file whose district sheet could be read
    and filtered has the requested code. *)
Theorem summary_absent_iff_no_row w d k p out s t :
  call (process_files w d k p) = (out, Ok (s, Some t)) ->
  s = None <-> all_kab_rows w d k p = [].
Proof.
  intros (_ & Hs & _)%process_files_returns_table.
  by apply summary_None_iff.
Qed.

Lemma summary_absent_iff_no_row_witness :
  call (process_files world_AB "data" 9999 "4_54")
    = ((call (process_files world_AB "data" 9999 "4_54")).1,
       Ok (None, Some (accumulated_kec world_AB 9999 "4_54"
                         (files_of world_AB "data" "4_54")))) /\
  ((None : option DataFrame) = None <-> all_kab_rows world_AB "data" 9999 "4_54" = []).
Proof.
  assert (call (process_files world_AB "data" 9999 "4_54")
          = ((call (process_files world_AB "data" 9999 "4_54")).1,
             Ok (None, Some (accumulated_kec world_AB 9999 "4_54"
                               (files_of world_AB "data" "4_54"))))) as Hcall
    by (vm_compute; reflexivity).
  split; [exact Hcall|].
  exact (summary_absent_iff_no_row _ _ _ _ _ _ _ Hcall).
Defined.

Lemma fmap_nil_iff {A B : Type} (f : A -> B) (l : list A) :
  f <$> l = [] <-> l = [].
Proof. by destruct l. Qed.

Lemma grouped_rows_nil_iff R :
  grouped_rows R = [] <-> Forall (fun r => cell "kec" r = VNaN) R.
Proof.
  unfold grouped_rows. rewrite fmap_nil_iff. split.
  - intros Hnil. apply Forall_forall. intros r Hr.
    destruct (decide (cell "kec" r = VNaN)) as [|Hne]; [done|].
    assert (cell "kec" r ∈ group_keys (cell "kec" <$> R)) as Hin.
    { apply group_keys_elem. split; [|done]. apply list_elem_of_fmap. eauto. }
    rewrite Hnil in Hin. by apply elem_of_nil in Hin.
  - intros Hall. rewrite Forall_forall in Hall.
    destruct (group_keys (cell "kec" <$> R)) as [|kv l] eqn:Hk; [done|].
    assert (kv ∈ group_keys (cell "kec" <$> R)) as Hin by (rewrite Hk; left).
    apply group_keys_elem in Hin as [(r & -> & Hr)%list_elem_of_fmap Hne].
    by destruct Hne; apply Hall.
Qed.

Lemma table_empty_iff w k p files t :
  Forall (numeric_measures w k p) files ->
  kec_table (accumulated_kec w k p files) = Ok t ->
  empty t = true <->
  Forall (fun r => cell "kec" r = VNaN) (files ≫= kec_rows w k p).
Proof.
  intros Hnum Ht.
  destruct (kec_table_numeric w k p _ Hnum) as (t' & Ht' & Hrows).
  rewrite Ht in Ht'. injection Ht' as <-.
  assert (rows t = [] <-> Forall (fun r => cell "kec" r = VNaN)
                            (files ≫= kec_rows w k p)) as Hiff.
  { rewrite Hrows, fmap_nil_iff, grouped_rows_nil_iff.
    rewrite Forall_forall in Hnum.
    rewrite !Forall_forall. split.
    - intros Hall r Hr.
      destruct (decide (cell "kec" r = VNaN)) as [|Hne]; [done|].
      assert (cell "kec" r ∈ cell "kec" <$> (files ≫= piece_rows w k p))
        as (r' & Heq & Hr')%list_elem_of_fmap.
      { apply cross_file_keys; [done|]. split; [|done].
        apply list_elem_of_fmap. eauto. }
      rewrite Heq in Hne. by destruct Hne; apply Hall.
    - intros Hall r Hr.
      assert (cell "kec" r ∈ cell "kec" <$> (files ≫= piece_rows w k p))
        as Hin by (apply list_elem_of_fmap; eauto).
      apply cross_file_keys in Hin as [(r' & Heq & Hr')%list_elem_of_fmap Hne];
        [|done].
      rewrite Heq in Hne. by destruct Hne; apply Hall. }
  rewrite <- Hiff. unfold kec_table in Ht.
  destruct (empty (accumulated_kec w k p files)) eqn:Hempty.
  - injection Ht as <-. rewrite Hempty.
    by rewrite (accumulated_kec_empty _ _ _ _ Hempty).
  - destruct (groupby_sum "kec" columns_to_sum _) as [g|e] eqn:Hg; [|done].
    cbn in Ht.
    destruct (add_SUM_Ok _ _ (SUM_not_grouped _ _ Hg) Ht) as [Hcols _].
    unfold empty. split.
    + intros [Hc|Hr]%orb_true_iff.
      * apply bool_decide_eq_true in Hc. unfold columns in Hcols.
        rewrite Hc in Hcols. symmetry in Hcols.
        by apply app_eq_nil in Hcols as [_ ?].
      * by apply bool_decide_eq_true in Hr.
    + intros ->. apply orb_true_r.
Qed.

(** X4. Rows without a sub-district code are left out by the group-by:
    with numeric measures, the sub-district table that the call returns is
    empty exactly when every matching sub-district row of the successfully
    processed files has a missing kec. *)
Theorem table_empty_iff_no_code w d k p :
  Forall (numeric_measures w k p) (files_of w d p) ->
  files_of w d p <> [] ->
  exists s t,
    (call (process_files w d k p)).2 = Ok (s, Some t) /\
    (empty t = true <->
     Forall (fun r => cell "kec" r = VNaN) (all_kec_rows w d k p)).
Proof.
  intros Hnum Hf. rewrite process_files_result by done.
  destruct (district_summary_Ok (accumulated_kab w k p (files_of w d p)))
    as [s ->].
  destruct (kec_table_numeric w k p _ Hnum) as (t & Ht & _).
  rewrite Ht. exists s, t. split; [done|].
  by apply table_empty_iff.
Qed.

Lemma table_empty_iff_no_code_witness :
  Forall (numeric_measures world_AB 7205 "4_54") (files_of world_AB "data" "4_54") /\
  files_of world_AB "data" "4_54" <> [] /\
  exists s t,
    (call (process_files world_AB "data" 7205 "4_54")).2 = Ok (s, Some t) /\
    (empty t = true <->
     Forall (fun r => cell "kec" r = VNaN) (all_kec_rows world_AB "data" 7205 "4_54")).
Proof.
  assert (Forall (numeric_measures world_AB 7205 "4_54")
            (files_of world_AB "data" "4_54")) as Hnum
    by (apply (bool_decide_unpack _); vm_compute; exact I).
  assert (files_of world_AB "data" "4_54" <> []) as Hf
    by (vm_compute; discriminate).
  split; [exact Hnum|]. split; [exact Hf|].
  exact (table_empty_iff_no_code world_AB "data" 7205 "4_54" Hnum Hf).
Defined.

(** ** What a call prints *)

Lemma loop_stdout w k p files st :
  stdout (foldl (fun st file => after_file w k p file st) st files)
  = stdout st ++ (files ≫= file_lines w k p).
Proof.
  revert st. induction files as [|file files IH]; intros st.
  - cbn. by rewrite app_nil_r.
  - cbn [foldl]. rewrite IH, (bind_cons _ file). unfold after_file, file_lines, file_error.
    destruct (district_data_kab w k p file) as [dk|e];
      [destruct (summed_kec w k p file) as [sk|e]|];
      cbn [stdout]; by rewrite <- ?app_assoc.
Qed.

Lemma process_kab_result_kec k p st st' :
  process_kab k p st = (st', Ok tt) -> result_kec st' = result_kec st.
Proof.
  rewrite process_kab_spec. destruct (district_summary _); [|done].
  by intros [= <-].
Qed.

Lemma process_kec_stdout k p st st' :
  process_kec k p st = (st', Ok tt) ->
  stdout st' = stdout st ++ kec_log k p (result_kec st).
Proof.
  rewrite process_kec_result. cbv zeta. unfold kec_log.
  destruct (kec_table _); [by intros [= <-]|].
  by destruct (groupby_sum _ _ _).
Qed.

Lemma call_stdout w d k p out s t :
  call (process_files w d k p) = (out, Ok (s, Some t)) ->
  out = (files_of w d p ≫= file_lines w k p)
        ++ kab_log k p (accumulated_kab w k p (files_of w d p))
        ++ kec_log k p (accumulated_kec w k p (files_of w d p)).
Proof.
  intros (st1 & st2 & st3 & _ & H1 & H2 & H3 & -> & _)%process_files_returns.
  rewrite for_each_loop in H1. injection H1 as H1.
  rewrite (process_kec_stdout _ _ _ _ H3), (process_kab_stdout _ _ _ _ H2).
  rewrite (process_kab_result_kec _ _ _ _ H2), <- H1.
  rewrite loop_stdout, loop_result_kab, loop_result_kec.
  by rewrite <- app_assoc.
Qed.



(** X6. Whenever the returned sub-district table is not empty, the call has
    printed for each of id_prov, id_kab and id_kec that the column was not
    found, whatever the columns of the sheets are. *)
Theorem identifier_columns_always_reported w d k p out s t line :
  call (process_files w d k p) = (out, Ok (s, Some t)) ->
  empty t = false ->
  line ∈ kec_not_found -> line ∈ out.
Proof.
  intros Hcall Hne Hline. rewrite (call_stdout _ _ _ _ _ _ _ Hcall).
  apply process_files_returns_table in Hcall as (_ & _ & Ht).
  rewrite !elem_of_app. right. right. unfold kec_log.
  unfold kec_table in Ht.
  destruct (empty (accumulated_kec w k p (files_of w d p))) eqn:Hempty; [|done].
  injection Ht as <-. congruence.
Qed.

Lemma identifier_columns_always_reported_witness :
  call (process_files world_ids "data" 7205 "4_54")
    = ((call (process_files world_ids "data" 7205 "4_54")).1,
       Ok (to_option (district_summary
                        (accumulated_kab world_ids 7205 "4_54"
                           (files_of world_ids "data" "4_54"))) ≫= id,
           Some (default DataFrame_new
                   (to_option (kec_table
                      (accumulated_kec world_ids 7205 "4_54"
                         (files_of world_ids "data" "4_54"))))))) /\
  "Column id_kec not found in the kecamatan data."
  ∈ (call (process_files world_ids "data" 7205 "4_54")).1.
Proof.
  assert (call (process_files world_ids "data" 7205 "4_54")
    = ((call (process_files world_ids "data" 7205 "4_54")).1,
       Ok (to_option (district_summary
                        (accumulated_kab world_ids 7205 "4_54"
                           (files_of world_ids "data" "4_54"))) ≫= id,
           Some (default DataFrame_new
                   (to_option (kec_table
                      (accumulated_kec world_ids 7205 "4_54"
                         (files_of world_ids "data" "4_54")))))))) as Hcall
    by (vm_compute; reflexivity).
  split; [exact Hcall|].
  apply (identifier_columns_always_reported _ _ _ _ _ _ _ _ Hcall).
  - vm_compute. reflexivity.
  - apply (bool_decide_unpack _). vm_compute. exact I.
Defined.

(** ** [get_input_with_default] *)

Lemma get_input_rejected_prefix {A : Type} prompt (default : A) str_default
    input_type name bad stdin out :
  Forall (rejected input_type) bad ->
  get_input_with_default prompt default str_default input_type name
    (bad ++ stdin) out
  = get_input_with_default prompt default str_default input_type name
      stdin (out ++ retries prompt str_default name bad).
Proof.
  intros Hbad. revert out.
  induction Hbad as [|b bad [Hb [msg Hmsg]] _ IH]; intros out.
  - cbn. by rewrite app_nil_r.
  - cbn [app get_input_with_default].
    rewrite decide_False by done. rewrite Hmsg, IH.
    unfold retries. rewrite (bind_cons _ b). cbn [app].
    by rewrite <- !app_assoc.
Qed.

Lemma get_input_decided {A : Type} prompt (default : A) str_default
    input_type name line rest out :
  ~ rejected input_type line ->
  get_input_with_default prompt default str_default input_type name
    (line :: rest) out
  = (rest, out ++ [prompt_line prompt str_default],
     reply default input_type line).
Proof.
  intros Hline. cbn [get_input_with_default]. unfold reply.
  destruct (decide (line = EmptyString)) as [->|Hne]; [done|].
  destruct (input_type line) as [a|e] eqn:Hconv; [done|].
  destruct e; try done. destruct Hline. split; [done|]. by eexists.
Qed.

(** X7. After any number of lines that the conversion rejects with a
    [ValueError], the first other line decides: an empty line gives the
    default, a line the conversion accepts gives its value, and an
    exception other than [ValueError] goes on to the caller.  Every
    rejected line costs one prompt and one complaint; the lines after the
    deciding one are left on the input. *)
Theorem get_input_after_rejected {A : Type} prompt (default : A) str_default
    input_type name bad line rest out :
  Forall (rejected input_type) bad ->
  ~ rejected input_type line ->
  get_input_with_default prompt default str_default input_type name
    (bad ++ line :: rest) out
  = (rest,
     out ++ retries prompt str_default name bad
         ++ [prompt_line prompt str_default],
     reply default input_type line).
Proof.
  intros Hbad Hline.
  rewrite get_input_rejected_prefix, get_input_decided by done.
  by rewrite <- app_assoc.
Qed.

Lemma get_input_after_rejected_witness :
  Forall (rejected digits_only) ["abc"; "7 205"] /\
  ~ rejected digits_only "7206" /\
  get_input_with_default "Code" 7205 "7205" digits_only "int"
    (["abc"; "7 205"] ++ "7206" :: ["next"]) []
  = (["next"],
     [] ++ retries "Code" "7205" "int" ["abc"; "7 205"]
        ++ [prompt_line "Code" "7205"],
     reply 7205 digits_only "7206").
Proof.
  assert (Forall (rejected digits_only) ["abc"; "7 205"]) as Hbad.
  { repeat constructor; try discriminate; by eexists. }
  assert (~ rejected digits_only "7206") as Hline.
  { intros [_ [msg Hmsg]]. vm_compute in Hmsg. discriminate Hmsg. }
  split; [exact Hbad|]. split; [exact Hline|].
  exact (get_input_after_rejected "Code" 7205 "7205" digits_only "int"
           ["abc"; "7 205"] "7206" ["next"] [] Hbad Hline).
Defined.

Example get_input_reply_7206 : reply 7205 digits_only "7206" = Returns 7206.
Proof. reflexivity. Qed.

(** X8. The end of the input is not caught: when every line left is
    rejected, the function shows a last prompt and raises [EOFError]. *)
Theorem get_input_end_of_input {A : Type} prompt (default : A) str_default
    input_type name lines out :
  Forall (rejected input_type) lines ->
  get_input_with_default prompt default str_default input_type name lines out
  = ([],
     out ++ retries prompt str_default name lines
         ++ [prompt_line prompt str_default],
     Raises EOFError).
Proof.
  intros Hbad.
  rewrite <- (app_nil_r lines) at 1.
  rewrite get_input_rejected_prefix by done.
  cbn [get_input_with_default]. by rewrite <- app_assoc.
Qed.

Lemma get_input_end_of_input_witness :
  Forall (rejected digits_only) ["abc"] /\
  get_input_with_default "Code" 7205 "7205" digits_only "int" ["abc"] []
  = ([],
     [] ++ retries "Code" "7205" "int" ["abc"] ++ [prompt_line "Code" "7205"],
     Raises EOFError).
Proof.
  assert (Forall (rejected digits_only) ["abc"]) as Hbad.
  { repeat constructor; try discriminate; by eexists. }
  split; [exact Hbad|].
  exact (get_input_end_of_input "Code" 7205 "7205" digits_only "int"
           ["abc"] [] Hbad).
Defined.

Lemma get_input_consumes {A : Type} prompt (default : A) str_default
    input_type name stdin out stdin' out' a :
  get_input_with_default prompt default str_default input_type name stdin out
  = (stdin', out', Returns a) ->
  (length stdin' < length stdin)%nat.
Proof.
  revert out. induction stdin as [|line stdin IH]; intros out; [done|].
  cbn [get_input_with_default length].
  destruct (decide (line = EmptyString)); [intros [= <- _ _]; lia|].
  destruct (input_type line) as [b|e]; [intros [= <- _ _]; lia|].
  destruct e; try done. intros Hg%IH. lia.
Qed.

(** ** The main block *)

Lemma reply_not_rejected {A : Type} (default : A) input_type line a :
  reply default input_type line = Returns a -> ~ rejected input_type line.
Proof.
  unfold reply. intros Hr [Hne [msg Hmsg]].
  rewrite decide_False, Hmsg in Hr by done. discriminate Hr.
Qed.

(** The main block once the three inputs are read. *)
Lemma main_spec env komoditas bad l1 l2 rest k p :
  Forall (rejected (py_int env)) bad ->
  reply 7205 (py_int env) l1 = Returns k ->
  reply "4_54" Ok l2 = Returns p ->
  main env (komoditas :: bad ++ l1 :: l2 :: rest)
  = match call (process_files (world env)
                  (os_path_join (base_directory env) komoditas) k p) with
    | (lines, Raise e) =>
      mkRun rest (prompts bad ++ lines) None (Raises (Uncaught e))
    | (lines, Ok (s, t)) =>
      write_output env (output_file_of komoditas (kab_name_of s)) s t rest
        (prompts bad ++ lines)
    end.
Proof.
  intros Hbad H1 H2. unfold main.
  rewrite get_input_rejected_prefix by done.
  rewrite get_input_decided by (by eapply reply_not_rejected).
  rewrite H1.
  rewrite get_input_decided by (by eapply reply_not_rejected).
  rewrite H2.
  assert ((["Enter the name of the komoditas (e.g., jeruk): "]
            ++ retries "Enter the kabupaten code (e.g., 7205): " "7205" "int" bad
            ++ [prompt_line "Enter the kabupaten code (e.g., 7205): " "7205"])
          ++ [prompt_line "Enter the table number prefix (e.g., 4_54): " "4_54"]
          = prompts bad) as Hout.
  { unfold prompts. cbn [app]. by rewrite <- app_assoc. }
  rewrite <- (app_assoc [_]) , Hout.
  by destruct (call _) as [lines [[s t]|e]].
Qed.

(** X9. Without a candidate file the main block cannot end well: it
    has shown the prompts and the line that no file was found, it opens
    the writer under the name that ends in [_unknown.xlsx] and gives it
    no sheet, and it ends with the [AttributeError] of [result_kec.empty]
    on [None], or with what closing the writer raised (opening the
    writer under that name is taken to succeed). *)
Theorem main_without_files env komoditas bad l1 l2 rest k p :
  Forall (rejected (py_int env)) bad ->
  reply 7205 (py_int env) l1 = Returns k ->
  reply "4_54" Ok l2 = Returns p ->
  files_of (world env) (os_path_join (base_directory env) komoditas) p = [] ->
  excel_open env (output_file_of komoditas "unknown") = Ok tt ->
  main env (komoditas :: bad ++ l1 :: l2 :: rest)
  = mkRun rest
      (prompts bad
       ++ ["No Excel files found with prefix '" +:+ p +:+ "' in directory: "
           +:+ os_path_join (base_directory env) komoditas])
      (Some (output_file_of komoditas "unknown", []))
      (match excel_save env (output_file_of komoditas "unknown") [] with
       | Ok _ => Raises no_attribute_empty
       | Raise e => Raises (Uncaught e)
       end).
Proof.
  intros Hbad H1 H2 Hf Hopen. rewrite (main_spec _ _ _ _ _ _ _ _ Hbad H1 H2).
  unfold call. rewrite process_files_spec, bool_decide_eq_true_2 by done.
  cbn [stdout]. unfold write_output, kab_name_of. by rewrite Hopen.
Qed.

Lemma main_without_files_witness :
  Forall (rejected (py_int env_jeruk)) ["72o5"] /\
  reply 7205 (py_int env_jeruk) "7205" = Returns 7205 /\
  reply "4_54" Ok EmptyString = Returns "4_54" /\
  files_of (world env_jeruk) (os_path_join (base_directory env_jeruk) "apel")
    "4_54" = [] /\
  excel_open env_jeruk (output_file_of "apel" "unknown") = Ok tt /\
  outcome (main env_jeruk ("apel" :: ["72o5"] ++ "7205" :: EmptyString :: []))
  = Raises no_attribute_empty.
Proof.
  assert (Forall (rejected (py_int env_jeruk)) ["72o5"]) as Hbad.
  { repeat constructor; try discriminate; by eexists. }
  assert (reply 7205 (py_int env_jeruk) "7205" = Returns 7205) as H1
    by reflexivity.
  assert (reply "4_54" Ok EmptyString = Returns "4_54") as H2 by reflexivity.
  assert (files_of (world env_jeruk)
            (os_path_join (base_directory env_jeruk) "apel") "4_54" = [])
    as Hf by reflexivity.
  assert (excel_open env_jeruk (output_file_of "apel" "unknown") = Ok tt)
    as Hopen by reflexivity.
  split; [exact Hbad|]. split; [exact H1|]. split; [exact H2|].
  split; [exact Hf|]. split; [exact Hopen|].
  rewrite (main_without_files env_jeruk "apel" ["72o5"] "7205" EmptyString []
             7205 "4_54" Hbad H1 H2 Hf Hopen).
  reflexivity.
Defined.

(** X10. The main block ends normally only after the writer has been
    opened and closed without an exception, and then the last line it
    has printed is that the data has been saved to that file. *)
Theorem main_returns env stdin :
  outcome (main env stdin) = Returns tt ->
  exists name sheets,
    workbook (main env stdin) = Some (name, sheets) /\
    excel_open env name = Ok tt /\
    excel_save env name sheets = Ok tt /\
    last (printed (main env stdin))
    = Some ("Data has been saved to " +:+ name).
Proof.
  unfold main. destruct stdin as [|komoditas stdin]; [done|].
  destruct (get_input_with_default _ _ _ _ _ _ _) as [[stdin1 out1] [k|e]];
    [|done].
  destruct (get_input_with_default _ _ _ _ _ _ _) as [[stdin2 out2] [p|e]];
    [|done].
  destruct (call _) as [lines [[s t]|e]]; [|done].
  unfold write_output.
  destruct (excel_open _ _) as [[]|e] eqn:Hopen; [|done].
  destruct t as [t|].
  - destruct (excel_save _ _ _) as [[]|e] eqn:Hsave; [|done].
    intros _. eexists _, _. split; [done|]. split; [exact Hopen|].
    split; [exact Hsave|]. cbn [printed]. apply last_snoc.
  - by destruct (excel_save _ _ _).
Qed.

Lemma main_returns_witness :
  outcome (main env_jeruk ["jeruk"; EmptyString; EmptyString]) = Returns tt /\
  exists name sheets,
    workbook (main env_jeruk ["jeruk"; EmptyString; EmptyString])
    = Some (name, sheets) /\
    excel_open env_jeruk name = Ok tt /\
    excel_save env_jeruk name sheets = Ok tt /\
    last (printed (main env_jeruk ["jeruk"; EmptyString; EmptyString]))
    = Some ("Data has been saved to " +:+ name).
Proof.
  assert (outcome (main env_jeruk ["jeruk"; EmptyString; EmptyString])
          = Returns tt) as Hout by (vm_compute; reflexivity).
  split; [exact Hout|].
  exact (main_returns env_jeruk ["jeruk"; EmptyString; EmptyString] Hout).
Defined.

(** X11. Which sheets the writer gets is decided by the data: with
    candidate files and numeric measures, a writer that can be opened gets
    the sheet Kabupaten exactly when some district row has the requested
    code, followed by the sheet Kecamatan exactly when some matching
    sub-district row of a successfully processed file has a kec code; the
    frames are the two results of [process_files]. *)
Theorem main_sheets env komoditas bad l1 l2 rest k p :
  Forall (rejected (py_int env)) bad ->
  reply 7205 (py_int env) l1 = Returns k ->
  reply "4_54" Ok l2 = Returns p ->
  files_of (world env) (os_path_join (base_directory env) komoditas) p <> [] ->
  Forall (numeric_measures (world env) k p)
    (files_of (world env) (os_path_join (base_directory env) komoditas) p) ->
  (forall name, excel_open env name = Ok tt) ->
  exists s t sheets,
    (call (process_files (world env)
             (os_path_join (base_directory env) komoditas) k p)).2
    = Ok (s, Some t) /\
    workbook (main env (komoditas :: bad ++ l1 :: l2 :: rest))
    = Some (output_file_of komoditas (kab_name_of s), sheets) /\
    sheets.*1
    = sheet_names (world env) (os_path_join (base_directory env) komoditas) k p /\
    (forall name df, (name, df) ∈ sheets ->
       (name = "Kabupaten" /\ s = Some df) \/ (name = "Kecamatan" /\ t = df)).
Proof.
  intros Hbad H1 H2 Hf Hnum Hopen.
  rewrite (main_spec _ _ _ _ _ _ _ _ Hbad H1 H2).
  set (d := os_path_join (base_directory env) komoditas) in *.
  pose proof (process_files_result (world env) d k p Hf) as Hres.
  destruct (district_summary_Ok
              (accumulated_kab (world env) k p (files_of (world env) d p)))
    as [s Hs].
  destruct (kec_table_numeric (world env) k p _ Hnum) as (t & Ht & _).
  rewrite Hs, Ht in Hres. cbn in Hres.
  destruct (call _) as [lines r]. cbn [snd] in Hres. subst r.
  pose proof (summary_None_iff _ _ _ _ _ Hs) as Hkab.
  pose proof (table_empty_iff _ _ _ _ _ Hnum Ht) as Hkec.
  exists s, t.
  exists ((match s with Some s' => [("Kabupaten", s')] | None => [] end)
          ++ (if empty t then [] else [("Kecamatan", t)])).
  split; [done|]. split; [|split].
  - unfold write_output. rewrite Hopen.
    destruct (empty t); rewrite ?app_nil_r; by destruct (excel_save _ _ _).
  - unfold sheet_names, all_kab_rows, all_kec_rows. rewrite fmap_app.
    f_equal.
    + destruct (decide (_ = [])) as [Hnil|Hne].
      * apply Hkab in Hnil. by subst s.
      * destruct s as [s'|]; [done|]. by destruct Hne; apply Hkab.
    + destruct (decide (Forall _ _)) as [Hall|Hex].
      * apply Hkec in Hall. by rewrite Hall.
      * destruct (empty t); [|done]. by destruct Hex; apply Hkec.
  - intros name df [Hin|Hin]%elem_of_app.
    + destruct s as [s'|]; [|by apply elem_of_nil in Hin].
      apply list_elem_of_singleton in Hin as [= -> ->]. by left.
    + destruct (empty t); [by apply elem_of_nil in Hin|].
      apply list_elem_of_singleton in Hin as [= -> ->]. by right.
Qed.

Lemma main_sheets_witness :
  Forall (rejected (py_int env_jeruk)) ["x"] /\
  reply 7205 (py_int env_jeruk) EmptyString = Returns 7205 /\
  reply "4_54" Ok "4_54" = Returns "4_54" /\
  files_of (world env_jeruk) (os_path_join (base_directory env_jeruk) "jeruk") "4_54"
    <> [] /\
  Forall (numeric_measures (world env_jeruk) 7205 "4_54")
    (files_of (world env_jeruk) (os_path_join (base_directory env_jeruk) "jeruk")
       "4_54") /\
  (forall name, excel_open env_jeruk name = Ok tt) /\
  exists s t sheets,
    (call (process_files (world env_jeruk)
             (os_path_join (base_directory env_jeruk) "jeruk") 7205 "4_54")).2
    = Ok (s, Some t) /\
    workbook (main env_jeruk ("jeruk" :: ["x"] ++ EmptyString :: "4_54" :: []))
    = Some (output_file_of "jeruk" (kab_name_of s), sheets) /\
    sheets.*1
    = sheet_names (world env_jeruk)
        (os_path_join (base_directory env_jeruk) "jeruk") 7205 "4_54" /\
    (forall name df, (name, df) ∈ sheets ->
       (name = "Kabupaten" /\ s = Some df) \/ (name = "Kecamatan" /\ t = df)).
Proof.
  assert (Forall (rejected (py_int env_jeruk)) ["x"]) as Hbad.
  { repeat constructor; try discriminate; by eexists. }
  assert (reply 7205 (py_int env_jeruk) EmptyString = Returns 7205) as H1
    by reflexivity.
  assert (reply "4_54" Ok "4_54" = Returns "4_54") as H2 by reflexivity.
  assert (files_of (world env_jeruk)
            (os_path_join (base_directory env_jeruk) "jeruk") "4_54" <> [])
    as Hf by (vm_compute; discriminate).
  assert (Forall (numeric_measures (world env_jeruk) 7205 "4_54")
            (files_of (world env_jeruk)
               (os_path_join (base_directory env_jeruk) "jeruk") "4_54")) as Hnum
    by (apply (bool_decide_unpack _); vm_compute; exact I).
  assert (forall name, excel_open env_jeruk name = Ok tt) as Hopen
    by reflexivity.
  split; [exact Hbad|]. split; [exact H1|]. split; [exact H2|].
  split; [exact Hf|]. split; [exact Hnum|]. split; [exact Hopen|].
  exact (main_sheets env_jeruk "jeruk" ["x"] EmptyString "4_54" [] 7205 "4_54"
           Hbad H1 H2 Hf Hnum Hopen).
Defined.

Example sheet_names_jeruk :
  sheet_names world_jeruk "data/jeruk" 7205 "4_54" = ["Kabupaten"; "Kecamatan"].
Proof. vm_compute. reflexivity. Qed.



(** ** The name of the output file *)




















Example file_name_jeruk :
  output_file_of "Jeruk" (strip (after_last "]" "[7205] BANGGAI"))
  = "summary_komoditas_jeruk_banggai.xlsx".
Proof. reflexivity. Qed.



Example file_name_codes :
  option_map fst (workbook (main env_codes ["jeruk"; EmptyString; EmptyString]))
  = Some "summary_komoditas_jeruk_14410.xlsx".
Proof. vm_compute. reflexivity. Qed.

(** X15. The writer is not opened before the three inputs are read: on an
    input of fewer than three lines the main block raises and no workbook
    is opened. *)
Theorem main_needs_three_lines env stdin :
  (length stdin < 3)%nat ->
  workbook (main env stdin) = None /\
  exists e, outcome (main env stdin) = Raises e.
Proof.
  intros Hlen. unfold main. destruct stdin as [|komoditas stdin]; [by eauto|].
  destruct (get_input_with_default _ _ _ _ _ stdin _)
    as [[stdin1 out1] [k|e]] eqn:Hg1; [|by eauto].
  apply get_input_consumes in Hg1.
  destruct (get_input_with_default _ _ _ _ _ stdin1 _)
    as [[stdin2 out2] [p|e]] eqn:Hg2; [|by eauto].
  apply get_input_consumes in Hg2. cbn [length] in Hlen. lia.
Qed.

Lemma main_needs_three_lines_witness :
  (length ["jeruk"; "7205"] < 3)%nat /\
  workbook (main env_jeruk ["jeruk"; "7205"]) = None /\
  exists e, outcome (main env_jeruk ["jeruk"; "7205"]) = Raises e.
Proof.
  assert (length ["jeruk"; "7205"] < 3)%nat as Hlen by (cbn; lia).
  split; [exact Hlen|].
  exact (main_needs_three_lines env_jeruk ["jeruk"; "7205"] Hlen).
Defined.
